(** * MpvPlayer: playback strategy selection, argument building and progress parsing

    A shallow embedding of [viu_media/libs/player/mpv/player.py].

    Python strings are [string]s (characters are the code points below
    256), argument vectors are lists, the calls
    into the operating system ([shutil.which], [subprocess.run],
    [subprocess.Popen], [os.path.expanduser], the termux detection) are
    answered by a read-only [World], and every process the code tries to
    start is appended to a trace, so that "spawns no process" is a
    statement about that trace. *)

From Stdlib Require Import String Ascii List Bool Arith Lia.
Import ListNotations.
Open Scope string_scope.
Open Scope nat_scope.
Open Scope list_scope.

Set Implicit Arguments.

(** ** Python string primitives used by the module *)

Module PyStr.

(** [str.split(sep)] for a one-character separator: the pieces between
    the separators, the empty ones included; never the empty list. *)
Fixpoint split (sep : ascii) (s : string) : list string :=
  match s with
  | EmptyString => [EmptyString]
  | String c s' =>
      if Ascii.eqb c sep then EmptyString :: split sep s'
      else match split sep s' with
           | h :: t => String c h :: t
           | [] => [String c EmptyString]
           end
  end.

(** [sep.join(l)]. *)
Definition join (sep : string) (l : list string) : string :=
  String.concat sep l.

(** The characters [str.strip()] removes, among the code points below 256. *)
Definition isspace (c : ascii) : bool :=
  let n := nat_of_ascii c in
  ((9 <=? n) && (n <=? 13)) || ((28 <=? n) && (n <=? 32))
  || (n =? 133) || (n =? 160).

Fixpoint lstrip (s : string) : string :=
  match s with
  | EmptyString => EmptyString
  | String c s' => if isspace c then lstrip s' else s
  end.

(** Drops the trailing white space: a character stays when it is not
    white space or when something stays after it. *)
Fixpoint rstrip (s : string) : string :=
  match s with
  | EmptyString => EmptyString
  | String c s' =>
      match rstrip s' with
      | EmptyString => if isspace c then EmptyString else String c EmptyString
      | t => String c t
      end
  end.

Definition strip (s : string) : string := rstrip (lstrip s).

(** Truth value of a [str]: the empty string is false. *)
Definition truthy (s : string) : bool :=
  match s with EmptyString => false | _ => true end.

(** Truth value of an [Optional[str]]: [None] and [""] are false. *)
Definition truthy_opt (o : option string) : bool :=
  match o with Some s => truthy s | None => false end.

End PyStr.

(** ** The fragment of [re] the module relies on

    A backtracking matcher in the order Python's engine tries the
    alternatives: the left branch of [|] first, one more iteration of a
    greedy [*] before leaving it.  [rmatch] runs the pattern at offset
    [pos] of the subject, of which [s] is what remains, and hands the
    offset, the remainder and the groups reached to the continuation.

    An iteration of [*] has to consume a character, so a subject of
    length [n] allows at most [n] of them: the loop counts down from the
    length of what remains and never stops short.  [$] also matches
    before a final line feed, as it does without [re.MULTILINE]. *)

Module Re.

Inductive regex : Type :=
| Eps
| Chr (p : ascii -> bool)
| Seq (r1 r2 : regex)
| Alt (r1 r2 : regex)
| Star (r : regex)
| Group (n : nat) (r : regex)
| Bol
| Eol.

Definition captures := list (nat * string).

Record Match : Type := mkMatch {
  m_start : nat;
  m_end : nat;
  m_groups : captures
}.

Fixpoint lookup (n : nat) (caps : captures) : option string :=
  match caps with
  | [] => None
  | (i, v) :: caps' => if i =? n then Some v else lookup n caps'
  end.

(** [match.group(n)] for [n >= 1]: the text of the group, [None] when
    the group took no part in the match. *)
Definition group (m : Match) (n : nat) : option string :=
  lookup n (m_groups m).

Definition newline : ascii := ascii_of_nat 10.

Fixpoint rmatch (A : Type) (r : regex) (pos : nat) (s : list ascii)
    (caps : captures)
    (k : nat -> list ascii -> captures -> option A) {struct r} : option A :=
  match r with
  | Eps => k pos s caps
  | Chr p =>
      match s with
      | c :: s' => if p c then k (S pos) s' caps else None
      | [] => None
      end
  | Seq r1 r2 =>
      rmatch r1 pos s caps (fun pos' s' caps' => rmatch r2 pos' s' caps' k)
  | Alt r1 r2 =>
      match rmatch r1 pos s caps k with
      | Some x => Some x
      | None => rmatch r2 pos s caps k
      end
  | Star r1 =>
      (fix loop (fuel : nat) (pos : nat) (s : list ascii) (caps : captures)
           {struct fuel} : option A :=
         match fuel with
         | 0 => k pos s caps
         | S fuel' =>
             match rmatch r1 pos s caps
                     (fun pos' s' caps' =>
                        if pos <? pos' then loop fuel' pos' s' caps'
                        else None) with
             | Some x => Some x
             | None => k pos s caps
             end
         end) (length s) pos s caps
  | Group n r1 =>
      rmatch r1 pos s caps
        (fun pos' s' caps' =>
           k pos' s'
             ((n, string_of_list_ascii (firstn (pos' - pos) s)) :: caps'))
  | Bol => if pos =? 0 then k pos s caps else None
  | Eol =>
      match s with
      | [] => k pos s caps
      | [c] => if Ascii.eqb c newline then k pos s caps else None
      | _ => None
      end
  end.

(** The pattern tried at one offset of the subject. *)
Definition match_at (r : regex) (pos : nat) (s : list ascii) : option Match :=
  rmatch r pos s [] (fun pos' _ caps => Some (mkMatch pos pos' caps)).

(** [pattern.match(s)]: the pattern at the start of the subject only. *)
Definition re_match (r : regex) (s : string) : option Match :=
  match_at r 0 (list_ascii_of_string s).

Fixpoint search_from (r : regex) (pos : nat) (s : list ascii) : option Match :=
  match match_at r pos s with
  | Some m => Some m
  | None =>
      match s with
      | [] => None
      | _ :: s' => search_from r (S pos) s'
      end
  end.

(** [pattern.search(s)]: the first offset of the subject, from the left,
    at which the pattern matches. *)
Definition re_search (r : regex) (s : string) : option Match :=
  search_from r 0 (list_ascii_of_string s).

(** A literal string. *)
Fixpoint lit (s : string) : regex :=
  match s with
  | EmptyString => Eps
  | String c s' => Seq (Chr (Ascii.eqb c)) (lit s')
  end.

Definition is_digit (c : ascii) : bool :=
  let n := nat_of_ascii c in (48 <=? n) && (n <=? 57).

Definition is_digit_or_colon (c : ascii) : bool :=
  is_digit c || Ascii.eqb c ":"%char.

End Re.

Import Re.

(** [MPV_AV_TIME_PATTERN]: the text [AV: ], group 1 (any run of digits and
    colons), the text [ / ], group 2 (any run of digits and colons), a
    space and an opening parenthesis, group 3 (any run of digits), a
    percent sign and a closing parenthesis. *)
Definition MPV_AV_TIME_PATTERN : regex :=
  Seq (lit "AV: ")
 (Seq (Group 1 (Star (Chr is_digit_or_colon)))
 (Seq (lit " / ")
 (Seq (Group 2 (Star (Chr is_digit_or_colon)))
 (Seq (lit " (")
 (Seq (Group 3 (Star (Chr is_digit)))
      (lit "%)")))))).

(** ** Data carriers

    [PlayerParams], [PlayerResult] and [MpvConfig] are declared in modules
    this one imports; the fields are the ones [player.py] reads and
    writes.  A [dict] of headers is kept in insertion order, the order
    [items()] yields. *)

(** Modelled from the spec: the declaration of [PlayerParams] (module
    [..params]).  A playback request: target URL, episode identifier,
    optional title, optional start-time offset, optional ordered list of
    subtitle paths, optional mapping of header name to value,
    synchronized-playback flag. *)
Record PlayerParams : Type := mkPlayerParams {
  url : string;
  episode : string;
  title : option string;
  start_time : option string;
  subtitles : option (list string);
  headers : option (list (string * string));
  syncplay : bool
}.

(** Modelled from the spec: the declaration of [PlayerResult] (module
    [..types]).  Episode identifier, optional total-time string, optional
    elapsed-time string; an absent time means unknown. *)
Record PlayerResult : Type := mkPlayerResult {
  res_episode : string;
  res_total_time : option string;
  res_stop_time : option string
}.

(** [PlayerResult(episode)]: the two times keep their default [None]. *)
Definition PlayerResult_of (ep : string) : PlayerResult :=
  mkPlayerResult ep None None.

(** Modelled from the spec: the declaration of [MpvConfig] (module
    [core.config]).  An optional comma-delimited list of extra player
    arguments and an optional comma-delimited list of command-prefix
    tokens. *)
Record MpvConfig : Type := mkMpvConfig {
  args : option string;
  pre_args : option string
}.

(** Truth value of an optional list or dict: [None] and the empty one are
    false. *)
Definition truthy_list (A : Type) (o : option (list A)) : bool :=
  match o with
  | Some (_ :: _) => true
  | _ => false
  end.

(** ** The operating system *)

(** An element of an argument vector: a [str], or [None] where
    [self.executable] went unresolved. *)
Definition arg : Type := option string.

Definition environ : Type := list (string * string).

(** A call that starts a process. *)
Inductive event : Type :=
| SubprocessRun (argv : list arg) (capture_output : bool) (env : environ)
| SubprocessPopen (argv : list arg) (env : environ).

Record CompletedProcess : Type := mkCompletedProcess { stdout : string }.
Record Popen : Type := mkPopen { pid : nat }.

Record World : Type := mkWorld {
  (** [detect.is_running_in_termux()] *)
  is_running_in_termux : bool;
  (** [shutil.which(name)] *)
  which : string -> option string;
  (** [os.path.expanduser(path)] *)
  expanduser : string -> string;
  (** [detect.get_clean_env()] *)
  get_clean_env : environ;
  (** What [subprocess.run] gives back once the process has exited;
      [None] when the call raises instead. *)
  os_run : event -> option CompletedProcess;
  (** What [subprocess.Popen] gives back; [None] when the call raises. *)
  os_popen : event -> option Popen
}.

Inductive exn : Type :=
| ViuError (msg : string)
| LaunchFailure (e : event).

Inductive outcome (A : Type) : Type :=
| Ok (a : A)
| Raise (e : exn).
Arguments Ok {A} a.
Arguments Raise {A} e.

(** ** Computations: an exception or a value, and the processes started
    so far *)

Module M.

Definition t (A : Type) : Type := list event -> outcome A * list event.

Definition ret (A : Type) (a : A) : t A := fun tr => (Ok a, tr).

Definition raise (A : Type) (e : exn) : t A := fun tr => (Raise e, tr).

Definition bind (A B : Type) (m : t A) (f : A -> t B) : t B :=
  fun tr =>
    match m tr with
    | (Ok a, tr') => f a tr'
    | (Raise e, tr') => (Raise e, tr')
    end.

(** Runs a computation from the empty trace. *)
Definition exec (A : Type) (m : t A) : outcome A * list event := m [].

End M.

Arguments M.raise {A} e.

Notation "x <- c1 ;; c2" := (M.bind c1 (fun x => c2))
  (at level 61, c1 at next level, right associativity).
Notation "c1 ;;; c2" := (M.bind c1 (fun _ => c2))
  (at level 61, right associativity).

(** [subprocess.run(argv, env=detect.get_clean_env(), ...)] *)
Definition subprocess_run (w : World) (argv : list arg) (capture_output : bool)
  : M.t CompletedProcess :=
  fun tr =>
    let ev := SubprocessRun argv capture_output (get_clean_env w) in
    (match os_run w ev with
     | Some p => Ok p
     | None => Raise (LaunchFailure ev)
     end, tr ++ [ev]).

(** [subprocess.Popen(argv, env=detect.get_clean_env())] *)
Definition subprocess_Popen (w : World) (argv : list arg) : M.t Popen :=
  fun tr =>
    let ev := SubprocessPopen argv (get_clean_env w) in
    (match os_popen w ev with
     | Some p => Ok p
     | None => Raise (LaunchFailure ev)
     end, tr ++ [ev]).

(** ** [class MpvPlayer] *)

Record MpvPlayer : Type := mkMpvPlayer {
  config : MpvConfig;
  executable : option string
}.

(** [__init__] *)
Definition init (w : World) (cfg : MpvConfig) : MpvPlayer :=
  mkMpvPlayer cfg (which w "mpv").

Definition some_all (l : list string) : list arg := map (@Some string) l.

(** *** helpers *)

Definition _mpv_config_dir (w : World) : string :=
  expanduser w "~/.config/mpv".

Definition _pre_args (self : MpvPlayer) : list string :=
  match pre_args (config self) with
  | Some s => if PyStr.truthy s then PyStr.split "," s else []
  | None => []
  end.

(** The list [mpv_args] is built by successive [append] and [extend]. *)
Definition _create_mpv_cli_options (self : MpvPlayer) (params : PlayerParams)
  : list string :=
  let mpv_args : list string := [] in
  let mpv_args :=
    if truthy_list (headers params) then
      let items := match headers params with Some d => d | None => [] end in
      let header_str :=
        PyStr.join "," (map (fun kv => fst kv ++ ":" ++ snd kv)%string items) in
      mpv_args ++ [("--http-header-fields=" ++ header_str)%string]
    else mpv_args in
  let mpv_args :=
    if truthy_list (subtitles params) then
      let subs := match subtitles params with Some l => l | None => [] end in
      fold_left (fun acc sub => acc ++ [("--sub-file=" ++ sub)%string])
        subs mpv_args
    else mpv_args in
  let mpv_args :=
    match start_time params with
    | Some st =>
        if PyStr.truthy st then mpv_args ++ [("--start=" ++ st)%string]
        else mpv_args
    | None => mpv_args
    end in
  let mpv_args :=
    match title params with
    | Some ti =>
        if PyStr.truthy ti then mpv_args ++ [("--title=" ++ ti)%string]
        else mpv_args
    | None => mpv_args
    end in
  let mpv_args :=
    match args (config self) with
    | Some a =>
        if PyStr.truthy a then mpv_args ++ PyStr.split "," a else mpv_args
    | None => mpv_args
    end in
  mpv_args.

Definition _base_mpv_args (w : World) (self : MpvPlayer) (params : PlayerParams)
  : list arg :=
  let argv :=
    [ executable self;
      Some ("--config-dir=" ++ _mpv_config_dir w)%string;
      Some (url params) ] in
  argv ++ some_all (_create_mpv_cli_options self params).

(** Truth value of what [match] and [search] return. *)
Definition matched (m : option Match) : bool :=
  match m with Some _ => true | None => false end.

(** The loop over the reversed lines of the captured output, left at the
    first line that carries the marker: [(stop_time, total_time)]. *)
Fixpoint scan_lines (lines : list string) : option string * option string :=
  match lines with
  | [] => (None, None)
  | line :: rest =>
      match re_search MPV_AV_TIME_PATTERN (PyStr.strip line) with
      | Some m => (group m 1, group m 2)
      | None => scan_lines rest
      end
  end.

(** The part of [_stream_on_desktop_with_subprocess] after the process
    has exited: [(stop_time, total_time)] read off [proc.stdout]. *)
Definition parse_times (out : string) : option string * option string :=
  if PyStr.truthy out then scan_lines (rev (PyStr.split newline out))
  else (None, None).

Section Player.

(** [TORRENT_REGEX] and [YOUTUBE_REGEX] are compiled in [core.patterns];
    the player only calls [match] and [search] on them. *)
Variables TORRENT_REGEX YOUTUBE_REGEX : regex.

Variable w : World.
Variable self : MpvPlayer.

(** *** mobile *)

Definition _play_on_mobile (params : PlayerParams) : M.t PlayerResult :=
  let argv :=
    if matched (re_match YOUTUBE_REGEX (url params)) then
      [ "nohup"; "am"; "start"; "--user"; "0";
        "-a"; "android.intent.action.VIEW";
        "-d"; url params;
        "-n"; "com.google.android.youtube/.UrlActivity" ]
    else
      [ "nohup"; "am"; "start"; "--user"; "0";
        "-a"; "android.intent.action.VIEW";
        "-d"; url params;
        "-n"; "is.xyz.mpv/.MPVActivity" ] in
  subprocess_run w (some_all argv) false ;;;
  M.ret (PlayerResult_of (episode params)).

(** *** desktop *)

Definition _stream_on_desktop_with_subprocess (params : PlayerParams)
  : M.t PlayerResult :=
  let mpv_args := _base_mpv_args w self params in
  let pre := _pre_args self in
  proc <- subprocess_run w (some_all pre ++ mpv_args) true ;;
  let times := parse_times (stdout proc) in
  M.ret (mkPlayerResult (episode params) (snd times) (fst times)).

Definition play_with_ipc (params : PlayerParams) (socket_path : string)
  : M.t Popen :=
  let mpv_args :=
    [ executable self;
      Some ("--input-ipc-server=" ++ socket_path)%string;
      Some "--idle=yes";
      Some "--force-window=yes";
      Some ("--config-dir=" ++ _mpv_config_dir w)%string;
      Some (url params) ] in
  let mpv_args := mpv_args ++ some_all (_create_mpv_cli_options self params) in
  subprocess_Popen w (some_all (_pre_args self) ++ mpv_args).

Definition _stream_on_desktop_with_webtorrent_cli (params : PlayerParams)
  : M.t PlayerResult :=
  let webtorrent := which w "webtorrent" in
  if negb (PyStr.truthy_opt webtorrent) then
    M.raise (ViuError "Please install webtorrent-cli")
  else
    let argv := [ webtorrent; Some (url params); Some "--mpv" ] in
    let argv :=
      match _create_mpv_cli_options self params with
      | [] => argv
      | mpv_args => (argv ++ [Some "--player-args"]) ++ some_all mpv_args
      end in
    subprocess_run w argv false ;;;
    M.ret (PlayerResult_of (episode params)).

Definition _stream_on_desktop_with_syncplay (params : PlayerParams)
  : M.t PlayerResult :=
  let syncplay_exe := which w "syncplay" in
  if negb (PyStr.truthy_opt syncplay_exe) then
    M.raise (ViuError "Please install syncplay")
  else
    let argv := [ syncplay_exe; Some (url params) ] in
    let argv :=
      match _base_mpv_args w self params with
      | [] => argv
      | mpv_args => (argv ++ [Some "--"]) ++ mpv_args
      end in
    subprocess_run w argv false ;;;
    M.ret (PlayerResult_of (episode params)).

Definition _play_on_desktop (params : PlayerParams) : M.t PlayerResult :=
  if negb (PyStr.truthy_opt (executable self)) then
    M.raise (ViuError "MPV executable not found in PATH.")
  else if matched (re_search TORRENT_REGEX (url params)) then
    _stream_on_desktop_with_webtorrent_cli params
  else if syncplay params then
    _stream_on_desktop_with_syncplay params
  else
    _stream_on_desktop_with_subprocess params.

(** *** public API *)

Definition play (params : PlayerParams) : M.t PlayerResult :=
  if matched (re_match TORRENT_REGEX (url params)) && is_running_in_termux w
  then M.raise (ViuError "Unable to play torrents on termux")
  else if syncplay params && is_running_in_termux w
  then M.raise (ViuError "Unable to play with syncplay on termux")
  else if is_running_in_termux w
  then _play_on_mobile params
  else _play_on_desktop params.

End Player.

(** A world for the examples: a search path given as a table, a home
    directory, processes that start and print [out]. *)
Definition sample_world (termux : bool) (paths : list (string * string))
    (out : string) : World :=
  mkWorld termux
    (fun name =>
       match find (fun kv => String.eqb (fst kv) name) paths with
       | Some kv => Some (snd kv)
       | None => None
       end)
    (fun p => match p with
              | String "~" rest => ("/home/u" ++ rest)%string
              | _ => p
              end)
    [("PATH", "/usr/bin")]
    (fun _ => Some (mkCompletedProcess out))
    (fun _ => Some (mkPopen 4242)).

Definition nl : string := String newline EmptyString.

(** The intent dispatch of [_play_on_mobile], by target component. *)
Definition intent_argv (u component : string) : list arg :=
  some_all [ "nohup"; "am"; "start"; "--user"; "0";
             "-a"; "android.intent.action.VIEW"; "-d"; u; "-n"; component ].

(** What a call of [subprocess.run] leaves behind: its outcome for the
    rest of the method, which returns [r] when the process was started. *)
Definition after_run (A : Type) (w : World) (ev : event) (r : A) : outcome A :=
  match os_run w ev with
  | Some _ => Ok r
  | None => Raise (LaunchFailure ev)
  end.

(** The command line of the player under IPC control as the interface
    description gives it: player, configuration directory, the three
    IPC tokens, URL, option flags. *)
Definition documented_ipc_argv (player : arg) (dir path u : string)
    (flags : list string) : list arg :=
  [ player;
    Some ("--config-dir=" ++ dir)%string;
    Some ("--input-ipc-server=" ++ path)%string;
    Some "--idle=yes";
    Some "--force-window=yes";
    Some u ] ++ some_all flags.

(** The command line of the torrent tool as the interface description
    gives it: tool, URL, [--mpv], and [--player-args] with the option
    tokens when there are any. *)
Definition torrent_argv (tool u : string) (tokens : list string) : list arg :=
  [ Some tool; Some u; Some "--mpv" ]
  ++ (if match tokens with [] => true | _ => false end then []
      else Some "--player-args" :: some_all tokens).

(** The command line of the sync tool as the interface description gives
    it: tool, URL, and [--] with the option tokens when there are any. *)
Definition documented_syncplay_argv (tool u : string) (tokens : list string)
  : list arg :=
  [ Some tool; Some u ]
  ++ (if match tokens with [] => true | _ => false end then []
      else Some "--" :: some_all tokens).

(** The option tokens group by group, as the argument builder is
    described: one header flag when there are headers, one flag per
    subtitle, the start flag and the title flag when the value is set
    (present and not empty), the configured extra arguments split at the
    commas. *)
Definition header_tokens (p : PlayerParams) : list string :=
  match headers p with
  | Some (kv :: rest) =>
      [ ("--http-header-fields="
         ++ PyStr.join ","
              (map (fun kv => fst kv ++ ":" ++ snd kv) (kv :: rest)))%string ]
  | _ => []
  end.

Definition subtitle_tokens (p : PlayerParams) : list string :=
  match subtitles p with
  | Some l => map (fun sub => ("--sub-file=" ++ sub)%string) l
  | None => []
  end.

Definition start_tokens (p : PlayerParams) : list string :=
  match start_time p with
  | Some st => if PyStr.truthy st then [ ("--start=" ++ st)%string ] else []
  | None => []
  end.

Definition title_tokens (p : PlayerParams) : list string :=
  match title p with
  | Some ti => if PyStr.truthy ti then [ ("--title=" ++ ti)%string ] else []
  | None => []
  end.

Definition extra_tokens (cfg : MpvConfig) : list string :=
  match args cfg with
  | Some a => if PyStr.truthy a then PyStr.split "," a else []
  | None => []
  end.

(** The lines read first to last, the latest one that carries the marker
    kept. *)
Definition last_marker (lines : list string) : option Match :=
  fold_left
    (fun acc line =>
       match re_search MPV_AV_TIME_PATTERN (PyStr.strip line) with
       | Some m => Some m
       | None => acc
       end)
    lines None.

(** Sample patterns, worlds and requests. *)
Definition magnet_pattern : regex := lit "magnet:?".
Definition youtube_pattern : regex := lit "https://www.youtube.com/".

Definition desktop_world : World :=
  sample_world false
    [ ("mpv", "/usr/bin/mpv"); ("webtorrent", "/usr/bin/webtorrent");
      ("syncplay", "/usr/bin/syncplay") ] "".

Definition desktop_world_without_mpv : World :=
  sample_world false
    [ ("webtorrent", "/usr/bin/webtorrent"); ("syncplay", "/usr/bin/syncplay") ]
    "".

Definition desktop_world_without_tools : World :=
  sample_world false [ ("mpv", "/usr/bin/mpv") ] "".

Definition termux_world : World := sample_world true [] "".

(** Two progress reports and a closing line, as mpv prints them. *)
Definition sample_output : string :=
  ("AV: 00:01:00 / 00:10:00 (10%)" ++ nl
   ++ "AV: 00:02:30 / 00:10:00 (25%)" ++ nl
   ++ "Exiting... (Quit)" ++ nl)%string.

Definition plain_config : MpvConfig := mkMpvConfig None None.

Definition plain_request (u : string) (sync : bool) : PlayerParams :=
  mkPlayerParams u "7" None None None None sync.

(** Building blocks for sample patterns: a literal blind to case, a
    fixed number of repetitions, letters and digits, any character but a
    line feed. *)
Definition lower (c : ascii) : ascii :=
  let n := nat_of_ascii c in
  if (65 <=? n) && (n <=? 90) then ascii_of_nat (n + 32) else c.

Fixpoint lit_nocase (s : string) : regex :=
  match s with
  | EmptyString => Eps
  | String c s' =>
      Seq (Chr (fun x => Ascii.eqb (lower x) (lower c))) (lit_nocase s')
  end.

Fixpoint times (n : nat) (r : regex) : regex :=
  match n with
  | 0 => Eps
  | S n' => Seq r (times n' r)
  end.

Definition is_alnum (c : ascii) : bool :=
  let n := nat_of_ascii (lower c) in
  is_digit c || ((97 <=? n) && (n <=? 122)).

Definition any_char : regex := Chr (fun c => negb (Ascii.eqb c newline)).

(** A sample pattern for whole torrent links, anchored at both ends and
    blind to case: a magnet link with a hash of 32 or 40 letters and
    digits and an optional tail after [&], or an http(s) URL that ends in
    [.torrent]. *)
Definition torrent_link_pattern : regex :=
  Seq Bol
    (Seq (Alt
            (Group 1
               (Seq (lit_nocase "magnet:?xt=urn:btih:")
               (Seq (Alt (times 32 (Chr is_alnum)) (times 40 (Chr is_alnum)))
                    (Alt (Seq (lit "&") (Seq any_char (Star any_char))) Eps))))
            (Group 2
               (Seq (lit_nocase "http")
               (Seq (Alt (lit_nocase "s") Eps)
               (Seq (lit "://")
               (Seq (Seq any_char (Star any_char))
                    (lit_nocase ".torrent")))))))
         Eol).

Definition sample_magnet : string :=
  "magnet:?xt=urn:btih:c12fe1c06bba254a9dc9f519b335aa7c1367a88a".

(** A desktop on which mpv prints [sample_output]. *)
Definition playing_world : World :=
  sample_world false
    [ ("mpv", "/usr/bin/mpv"); ("webtorrent", "/usr/bin/webtorrent") ]
    sample_output.

(** A request with every optional field filled in. *)
Definition full_request (u : string) (sync : bool) : PlayerParams :=
  mkPlayerParams u "7" (Some "Episode 7") (Some "120")
    (Some [ "/subs/en.srt"; "/subs/fr.srt" ])
    (Some [ ("Referer", "http://h/"); ("User-Agent", "viu") ]) sync.

Definition wrapped_config : MpvConfig :=
  mkMpvConfig (Some "--fs,--mute") (Some "env,LANG=C").

(** A line of output that opens with a progress marker. *)
Definition marker_line (e t pc rest : string) : string :=
  ("AV: " ++ e ++ " / " ++ t ++ " (" ++ pc ++ "%)" ++ rest)%string.

Definition no_newline (s : string) : bool :=
  forallb (fun c => negb (Ascii.eqb c newline)) (list_ascii_of_string s).

(** The messages of the [ViuError]s the module raises. *)
Definition viu_messages : list string :=
  [ "Unable to play torrents on termux";
    "Unable to play with syncplay on termux";
    "MPV executable not found in PATH.";
    "Please install webtorrent-cli";
    "Please install syncplay" ].

(** * Properties *)

Ltac unfold_m :=
  unfold M.exec, M.bind, M.ret, M.raise, subprocess_run, subprocess_Popen,
    after_run in *.

(** ** The argument builder *)

Lemma fold_left_append (A B : Type) (f : A -> B) (l : list A) :
  forall acc : list B,
    fold_left (fun acc x => acc ++ [f x]) l acc = acc ++ map f l.
Proof.
  induction l as [|x l IH]; intros acc; simpl.
  - now rewrite app_nil_r.
  - rewrite IH, <- app_assoc. reflexivity.
Qed.

Lemma split_not_nil (sep : ascii) (s : string) : PyStr.split sep s <> [].
Proof.
  destruct s as [|c s]; simpl; [discriminate|].
  destruct (Ascii.eqb c sep); [discriminate|].
  destruct (PyStr.split sep s); discriminate.
Qed.

(** Splitting loses nothing and keeps the order: joining the pieces with
    the separator gives the string back. *)
Lemma join_split (sep : ascii) (s : string) :
  PyStr.join (String sep EmptyString) (PyStr.split sep s) = s.
Proof.
  unfold PyStr.join. induction s as [|c s IH]; [reflexivity|].
  pose proof (split_not_nil sep s) as Hne. simpl.
  destruct (Ascii.eqb c sep) eqn:E.
  - apply Ascii.eqb_eq in E. subst c.
    destruct (PyStr.split sep s) as [|h t]; [contradiction|].
    change (String.concat (String sep EmptyString) (EmptyString :: h :: t))
      with (String sep (String.concat (String sep EmptyString) (h :: t))).
    now rewrite IH.
  - destruct (PyStr.split sep s) as [|h t]; [contradiction|].
    destruct t as [|h' t]; simpl in *; now rewrite IH.
Qed.

(** C6. The option tokens depend on the request and the configuration
    alone, and come in this order: the header flag (one flag, the pairs
    [key:value] joined by commas) when there are headers, one flag per
    subtitle in the order given, the start flag when set, the title flag
    when set, the comma-split extra arguments of the configuration last
    (joined by commas again they are the configured string). *)
Theorem create_mpv_cli_options_order
    (cfg : MpvConfig) (exe exe' : option string) (p : PlayerParams) :
  _create_mpv_cli_options (mkMpvPlayer cfg exe) p
  = header_tokens p ++ subtitle_tokens p ++ start_tokens p ++ title_tokens p
    ++ extra_tokens cfg
  /\ _create_mpv_cli_options (mkMpvPlayer cfg exe) p
     = _create_mpv_cli_options (mkMpvPlayer cfg exe') p
  /\ (extra_tokens cfg = []
      \/ Some (PyStr.join "," (extra_tokens cfg)) = args cfg).
Proof.
  split; [|split; [reflexivity|]].
  2:{ unfold extra_tokens. destruct (args cfg) as [a|]; [|now left].
      destruct (PyStr.truthy a); [right | now left].
      now rewrite join_split. }
  unfold _create_mpv_cli_options, header_tokens, subtitle_tokens,
    start_tokens, title_tokens, extra_tokens, truthy_list.
  cbn [config].
  destruct (headers p) as [[|kv hs]|];
    destruct (subtitles p) as [[|sub subs]|];
    destruct (start_time p) as [st|]; try destruct (PyStr.truthy st);
    destruct (title p) as [ti|]; try destruct (PyStr.truthy ti);
    destruct (args cfg) as [a|]; try destruct (PyStr.truthy a);
    rewrite ?fold_left_append; cbn [app map];
    rewrite <- ?app_assoc; cbn [app]; rewrite ?app_nil_r; reflexivity.
Qed.

(** ** The progress marker *)

Lemma list_ascii_of_string_app (a b : string) :
  list_ascii_of_string (a ++ b)
  = list_ascii_of_string a ++ list_ascii_of_string b.
Proof.
  induction a as [|c a IH]; simpl; [reflexivity | now rewrite IH].
Qed.

Section Matcher.

Variable A : Type.
Implicit Types (k : nat -> list ascii -> captures -> option A).

Lemma rmatch_lit_inv (t : string) :
  forall pos s caps k x,
    rmatch (lit t) pos s caps k = Some x ->
    exists s', s = list_ascii_of_string t ++ s'
               /\ k (pos + String.length t) s' caps = Some x.
Proof.
  induction t as [|c t IH]; intros pos s caps k x H; simpl in *.
  - exists s. rewrite Nat.add_0_r. auto.
  - destruct s as [|c0 s0]; [discriminate|].
    destruct (Ascii.eqb c c0) eqn:E; [|discriminate].
    apply Ascii.eqb_eq in E. subst c0.
    destruct (IH _ _ _ _ _ H) as (s' & -> & Hk).
    exists s'. split; [reflexivity|].
    rewrite <- Hk. f_equal. lia.
Qed.

Lemma rmatch_lit_app (t : string) :
  forall pos s' caps k,
    rmatch (lit t) pos (list_ascii_of_string t ++ s') caps k
    = k (pos + String.length t) s' caps.
Proof.
  induction t as [|c t IH]; intros pos s' caps k; simpl.
  - now rewrite Nat.add_0_r.
  - rewrite Ascii.eqb_refl, IH. f_equal. lia.
Qed.

(** One step of a starred character class: take the character when it is
    in the class and go on; give the rest to the continuation when that
    fails or the character is not in the class. *)
Lemma star_chr_cons (p : ascii -> bool) pos c s caps k :
  rmatch (Star (Chr p)) pos (c :: s) caps k
  = if p c then
      match rmatch (Star (Chr p)) (S pos) s caps k with
      | Some x => Some x
      | None => k pos (c :: s) caps
      end
    else k pos (c :: s) caps.
Proof.
  simpl. destruct (p c); [|reflexivity].
  replace (pos <? S pos) with true by (symmetry; apply Nat.ltb_lt; lia).
  reflexivity.
Qed.

Lemma star_chr_nil (p : ascii -> bool) pos caps k :
  rmatch (Star (Chr p)) pos [] caps k = k pos [] caps.
Proof.
  reflexivity.
Qed.

Lemma star_chr_inv (p : ascii -> bool) :
  forall s pos caps k x,
    rmatch (Star (Chr p)) pos s caps k = Some x ->
    exists e s', s = e ++ s' /\ forallb p e = true
                 /\ k (pos + length e) s' caps = Some x.
Proof.
  induction s as [|c s IH]; intros pos caps k x H.
  - rewrite star_chr_nil in H. exists [], []. rewrite Nat.add_0_r. auto.
  - rewrite star_chr_cons in H.
    assert (Stop : k pos (c :: s) caps = Some x ->
                   exists e s', c :: s = e ++ s' /\ forallb p e = true
                                /\ k (pos + length e) s' caps = Some x).
    { intros Hk. exists [], (c :: s). rewrite Nat.add_0_r. auto. }
    destruct (p c) eqn:Pc; [|auto].
    destruct (rmatch (Star (Chr p)) (S pos) s caps k) as [y|] eqn:E; [|auto].
    injection H as ->.
    destruct (IH _ _ _ _ E) as (e & s' & -> & He & Hk).
    exists (c :: e), s'. simpl. rewrite Pc, He.
    repeat split. rewrite <- Hk. f_equal. lia.
Qed.

(** The greedy run: when what follows the run is not in the class and the
    continuation accepts there, that is the answer. *)
Lemma star_chr_greedy (p : ascii -> bool) :
  forall e s' pos caps k x,
    forallb p e = true ->
    match s' with [] => true | c :: _ => negb (p c) end = true ->
    k (pos + length e) s' caps = Some x ->
    rmatch (Star (Chr p)) pos (e ++ s') caps k = Some x.
Proof.
  induction e as [|c e IH]; intros s' pos caps k x He Hs Hk;
    cbn [app length forallb] in *.
  - rewrite Nat.add_0_r in Hk. destruct s' as [|c s'].
    + exact Hk.
    + rewrite star_chr_cons. apply negb_true_iff in Hs. now rewrite Hs.
  - apply andb_true_iff in He as [Pc He]. rewrite star_chr_cons, Pc.
    rewrite (IH s' (S pos) caps k x He Hs); [reflexivity|].
    rewrite <- Hk. f_equal. lia.
Qed.

End Matcher.

(** ** [match] against [search] *)

Lemma search_from_head (r : regex) (pos : nat) (s : list ascii) (m : Match) :
  match_at r pos s = Some m -> search_from r pos s = Some m.
Proof.
  intros H. destruct s; simpl; rewrite H; reflexivity.
Qed.

Lemma search_from_found (r : regex) (i : nat) :
  forall (s : list ascii) (pos : nat) (m : Match),
    i <= length s ->
    match_at r (pos + i) (skipn i s) = Some m ->
    matched (search_from r pos s) = true.
Proof.
  induction i as [|i IH]; intros s pos m Hlen Hm.
  - rewrite Nat.add_0_r in Hm. simpl in Hm.
    destruct s; simpl; rewrite Hm; reflexivity.
  - destruct s as [|c s]; [simpl in Hlen; lia|].
    simpl. destruct (match_at r pos (c :: s)); [reflexivity|].
    apply (IH s (S pos) m).
    + simpl in Hlen. lia.
    + rewrite <- Hm. simpl. f_equal. lia.
Qed.

Lemma search_from_inv (r : regex) :
  forall (s : list ascii) (pos : nat) (m : Match),
    search_from r pos s = Some m ->
    exists i, i <= length s /\ match_at r (pos + i) (skipn i s) = Some m.
Proof.
  induction s as [|c s IH]; intros pos m H.
  - simpl in H. destruct (match_at r pos []) as [m'|] eqn:E; [|discriminate].
    injection H as ->.
    exists 0. rewrite Nat.add_0_r. split; [simpl; lia | exact E].
  - simpl in H. destruct (match_at r pos (c :: s)) as [m'|] eqn:E.
    + injection H as ->.
      exists 0. rewrite Nat.add_0_r. split; [simpl; lia | exact E].
    + destruct (IH (S pos) m H) as (i & Hi & Hm).
      exists (S i). split; [simpl; lia|].
      rewrite <- Hm. simpl. f_equal. lia.
Qed.

(** [search] succeeds exactly when the pattern matches at some offset of
    the subject, [match] exactly when it does at offset 0. *)
Lemma re_search_iff (r : regex) (s : string) :
  matched (re_search r s) = true <->
  exists i m, i <= length (list_ascii_of_string s)
              /\ match_at r i (skipn i (list_ascii_of_string s)) = Some m.
Proof.
  unfold re_search. split.
  - intros H.
    destruct (search_from r 0 (list_ascii_of_string s)) as [m|] eqn:E;
      [|discriminate].
    destruct (search_from_inv _ _ _ E) as (i & Hi & Hm).
    exists i, m. split; assumption.
  - intros (i & m & Hi & Hm).
    apply search_from_found with (i := i) (m := m); assumption.
Qed.

Lemma search_from_anchored (r : regex) :
  forall (s : list ascii) (pos : nat),
    search_from (Seq Bol r) (S pos) s = None.
Proof.
  induction s as [|c s IH]; intros pos; simpl.
  - reflexivity.
  - unfold match_at. simpl. apply IH.
Qed.

(** For a pattern that opens with [^] the two calls agree. *)
Lemma re_search_anchored (r : regex) (s : string) :
  re_search (Seq Bol r) s = re_match (Seq Bol r) s.
Proof.
  unfold re_search, re_match.
  destruct (list_ascii_of_string s) as [|c l]; simpl.
  - destruct (match_at (Seq Bol r) 0 []); reflexivity.
  - destruct (match_at (Seq Bol r) 0 (c :: l)); [reflexivity|].
    apply search_from_anchored.
Qed.

(** ** The marker the pattern recognises *)

Lemma rmatch_seq (A : Type) (r1 r2 : regex) pos s caps
    (k : nat -> list ascii -> captures -> option A) :
  rmatch (Seq r1 r2) pos s caps k
  = rmatch r1 pos s caps (fun pos' s' caps' => rmatch r2 pos' s' caps' k).
Proof.
  reflexivity.
Qed.

Lemma rmatch_group (A : Type) (n : nat) (r : regex) pos s caps
    (k : nat -> list ascii -> captures -> option A) :
  rmatch (Group n r) pos s caps k
  = rmatch r pos s caps
      (fun pos' s' caps' =>
         k pos' s' ((n, string_of_list_ascii (firstn (pos' - pos) s)) :: caps')).
Proof.
  reflexivity.
Qed.

Lemma firstn_run (pos : nat) (e s' : list ascii) :
  firstn (pos + length e - pos) (e ++ s') = e.
Proof.
  replace (pos + length e - pos) with (length e + 0) by lia.
  rewrite firstn_app_2. simpl. apply app_nil_r.
Qed.

(** The text of a marker: [AV: e / t (pc%)]. *)
Definition marker_text (e t pc : list ascii) : list ascii :=
  list_ascii_of_string "AV: " ++ e
  ++ list_ascii_of_string " / " ++ t
  ++ list_ascii_of_string " (" ++ pc
  ++ list_ascii_of_string "%)".

(** Whatever the pattern matches is a marker, and the groups are its
    three fields. *)
Lemma marker_match_inv (pos : nat) (s : list ascii) (m : Match) :
  match_at MPV_AV_TIME_PATTERN pos s = Some m ->
  exists e t pc post,
    s = marker_text e t pc ++ post
    /\ forallb is_digit_or_colon e = true
    /\ forallb is_digit_or_colon t = true
    /\ forallb is_digit pc = true
    /\ m_start m = pos
    /\ m_groups m = [ (3, string_of_list_ascii pc);
                      (2, string_of_list_ascii t);
                      (1, string_of_list_ascii e) ].
Proof.
  unfold match_at, MPV_AV_TIME_PATTERN. intros H.
  rewrite rmatch_seq in H.
  apply rmatch_lit_inv in H as (s1 & -> & H).
  rewrite rmatch_seq, rmatch_group in H.
  apply star_chr_inv in H as (e & s2 & -> & He & H).
  rewrite firstn_run, rmatch_seq in H.
  apply rmatch_lit_inv in H as (s3 & -> & H).
  rewrite rmatch_seq, rmatch_group in H.
  apply star_chr_inv in H as (t & s4 & -> & Ht & H).
  rewrite firstn_run, rmatch_seq in H.
  apply rmatch_lit_inv in H as (s5 & -> & H).
  rewrite rmatch_seq, rmatch_group in H.
  apply star_chr_inv in H as (pc & s6 & -> & Hpc & H).
  rewrite firstn_run in H.
  apply rmatch_lit_inv in H as (post & -> & H).
  injection H as <-.
  exists e, t, pc, post. unfold marker_text.
  rewrite <- !app_assoc. repeat split; assumption.
Qed.

(** A marker at the head of the subject is matched, with its first two
    fields as groups 1 and 2. *)
Lemma marker_match_at (pos : nat) (e t pc post : list ascii) :
  forallb is_digit_or_colon e = true ->
  forallb is_digit_or_colon t = true ->
  forallb is_digit pc = true ->
  exists m,
    match_at MPV_AV_TIME_PATTERN pos (marker_text e t pc ++ post) = Some m
    /\ m_groups m = [ (3, string_of_list_ascii pc);
                      (2, string_of_list_ascii t);
                      (1, string_of_list_ascii e) ].
Proof.
  intros He Ht Hpc. eexists. split.
  - unfold match_at, MPV_AV_TIME_PATTERN, marker_text.
    rewrite <- !app_assoc.
    rewrite rmatch_seq, rmatch_lit_app, rmatch_seq, rmatch_group.
    apply star_chr_greedy; [exact He | reflexivity |].
    rewrite firstn_run, rmatch_seq, rmatch_lit_app, rmatch_seq, rmatch_group.
    apply star_chr_greedy; [exact Ht | reflexivity |].
    rewrite firstn_run, rmatch_seq, rmatch_lit_app, rmatch_seq, rmatch_group.
    apply star_chr_greedy; [exact Hpc | reflexivity |].
    rewrite firstn_run, rmatch_lit_app. reflexivity.
  - reflexivity.
Qed.

(** A match of the pattern always has groups 1 and 2. *)
Lemma marker_groups (line : string) (m : Match) :
  re_search MPV_AV_TIME_PATTERN line = Some m ->
  exists e t, group m 1 = Some e /\ group m 2 = Some t.
Proof.
  unfold re_search. intros H.
  apply search_from_inv in H as (i & _ & H).
  apply marker_match_inv in H as (e & t & pc & post & _ & _ & _ & _ & _ & G).
  exists (string_of_list_ascii e), (string_of_list_ascii t).
  unfold group. rewrite G. split; reflexivity.
Qed.

(** A line that opens with a marker whose fields are digits and colons
    (digits for the percentage) is recognised, and groups 1 and 2 are the
    elapsed and the total time. *)
Lemma marker_line_search (e t pc post : string) :
  forallb is_digit_or_colon (list_ascii_of_string e) = true ->
  forallb is_digit_or_colon (list_ascii_of_string t) = true ->
  forallb is_digit (list_ascii_of_string pc) = true ->
  exists m,
    re_search MPV_AV_TIME_PATTERN
      ("AV: " ++ e ++ " / " ++ t ++ " (" ++ pc ++ "%)" ++ post)%string = Some m
    /\ group m 1 = Some e /\ group m 2 = Some t.
Proof.
  intros He Ht Hpc.
  destruct (@marker_match_at 0 _ _ _ (list_ascii_of_string post) He Ht Hpc)
    as (m & Hm & G).
  exists m. split.
  - unfold re_search. rewrite !list_ascii_of_string_app.
    unfold marker_text in Hm. rewrite <- !app_assoc in Hm.
    apply search_from_head. exact Hm.
  - unfold group. rewrite G. simpl.
    rewrite !string_of_list_ascii_of_string. split; reflexivity.
Qed.

(** ** The scan of the captured output *)

Lemma scan_lines_skip (a b : list string) :
  (forall x, In x a ->
             re_search MPV_AV_TIME_PATTERN (PyStr.strip x) = None) ->
  scan_lines (a ++ b) = scan_lines b.
Proof.
  induction a as [|x a IH]; intros H; simpl.
  - reflexivity.
  - rewrite (H x (or_introl eq_refl)). apply IH.
    intros y Hy. apply H. now right.
Qed.

(** The reverse scan with its early exit is the forward scan that keeps
    the latest marker. *)
Lemma scan_lines_rev (lines : list string) :
  scan_lines (rev lines)
  = match last_marker lines with
    | Some m => (group m 1, group m 2)
    | None => (None, None)
    end.
Proof.
  unfold last_marker.
  induction lines as [|x lines IH] using rev_ind; [reflexivity|].
  rewrite rev_unit, fold_left_app. simpl.
  destruct (re_search MPV_AV_TIME_PATTERN (PyStr.strip x)); [reflexivity|].
  exact IH.
Qed.

Lemma parse_times_last_marker (out : string) :
  parse_times out
  = match last_marker (PyStr.split newline out) with
    | Some m => (group m 1, group m 2)
    | None => (None, None)
    end.
Proof.
  destruct out as [|c out]; [reflexivity|].
  unfold parse_times. cbn [PyStr.truthy]. apply scan_lines_rev.
Qed.

(** C7. [parse_times] is total; when no line of the output carries the
    marker both times are [None]; otherwise the times are groups 1 and 2
    of the marker on the last line that carries one, whatever the lines
    before it hold, and both are present. *)
Theorem parse_times_last_matching_line (out : string) :
  ((forall line, In line (PyStr.split newline out) ->
                 re_search MPV_AV_TIME_PATTERN (PyStr.strip line) = None) ->
   parse_times out = (None, None))
  /\ (forall before line after m,
        PyStr.split newline out = before ++ line :: after ->
        re_search MPV_AV_TIME_PATTERN (PyStr.strip line) = Some m ->
        (forall x, In x after ->
                   re_search MPV_AV_TIME_PATTERN (PyStr.strip x) = None) ->
        parse_times out = (group m 1, group m 2)
        /\ exists elapsed total,
             group m 1 = Some elapsed /\ group m 2 = Some total).
Proof.
  split.
  - intros Hnone. unfold parse_times.
    destruct (PyStr.truthy out); [|reflexivity].
    rewrite <- (app_nil_r (rev _)). rewrite scan_lines_skip; [reflexivity|].
    intros x Hx. apply Hnone. now apply in_rev.
  - intros before line after m Hsplit Hm Hafter. split.
    + unfold parse_times. destruct out as [|c out].
      * destruct before as [|b before]; simpl in Hsplit.
        -- injection Hsplit as <- _. discriminate Hm.
        -- injection Hsplit as _ Hsplit. now destruct before.
      * cbn [PyStr.truthy]. rewrite Hsplit, rev_app_distr. simpl.
        rewrite <- app_assoc. rewrite scan_lines_skip.
        -- simpl. rewrite Hm. reflexivity.
        -- intros x Hx. apply Hafter. now apply in_rev.
    + exact (marker_groups _ Hm).
Qed.

(** A process run for its effect alone, then a result returned. *)
Lemma run_then_ret (A : Type) (w : World) (argv : list arg) (cap : bool)
    (r : A) (tr : list event) :
  (subprocess_run w argv cap ;;; M.ret r) tr
  = (after_run w (SubprocessRun argv cap (get_clean_env w)) r,
     tr ++ [SubprocessRun argv cap (get_clean_env w)]).
Proof.
  unfold_m. destruct (os_run w _); reflexivity.
Qed.

Section Guards.

Variables TORRENT_REGEX YOUTUBE_REGEX : regex.

Lemma play_mobile (w : World) (self : MpvPlayer) (p : PlayerParams) :
  is_running_in_termux w = true ->
  matched (re_match TORRENT_REGEX (url p)) = false ->
  syncplay p = false ->
  play TORRENT_REGEX YOUTUBE_REGEX w self p = _play_on_mobile YOUTUBE_REGEX w p.
Proof.
  intros Hm Ht Hs. unfold play. now rewrite Ht, Hs, Hm.
Qed.

Lemma play_desktop (w : World) (self : MpvPlayer) (p : PlayerParams) :
  is_running_in_termux w = false ->
  play TORRENT_REGEX YOUTUBE_REGEX w self p
  = _play_on_desktop TORRENT_REGEX w self p.
Proof.
  intros Hd. unfold play. rewrite Hd, !andb_false_r. reflexivity.
Qed.

(** C1. On termux, a request whose URL the torrent pattern matches, or one
    with the syncplay flag, makes [play] raise [ViuError] (the torrent
    message when the pattern matches, the syncplay message otherwise) and
    leaves the trace of started processes as it was. *)
Theorem play_termux_guards_raise_before_spawn
    (w : World) (self : MpvPlayer) (p : PlayerParams) (tr : list event) :
  is_running_in_termux w = true ->
  matched (re_match TORRENT_REGEX (url p)) || syncplay p = true ->
  play TORRENT_REGEX YOUTUBE_REGEX w self p tr
  = (Raise (ViuError
              (if matched (re_match TORRENT_REGEX (url p))
               then "Unable to play torrents on termux"
               else "Unable to play with syncplay on termux")), tr).
Proof.
  intros Hm Hg. unfold play. rewrite Hm, !andb_true_r.
  destruct (matched (re_match TORRENT_REGEX (url p))); simpl in *.
  - reflexivity.
  - now rewrite Hg.
Qed.

(** C2. Off termux, when [shutil.which("mpv")] found nothing at
    construction, [play] raises the executable-not-found [ViuError]
    whatever the request holds, a torrent URL or the syncplay flag
    included, and starts no process. *)
Theorem play_desktop_requires_executable
    (w : World) (cfg : MpvConfig) (p : PlayerParams) (tr : list event) :
  is_running_in_termux w = false ->
  which w "mpv" = None ->
  play TORRENT_REGEX YOUTUBE_REGEX w (init w cfg) p tr
  = (Raise (ViuError "MPV executable not found in PATH."), tr).
Proof.
  intros Hd Hx. rewrite play_desktop by exact Hd.
  unfold _play_on_desktop, init. simpl. rewrite Hx. reflexivity.
Qed.

Lemma _play_on_mobile_run (w : World) (p : PlayerParams) (tr : list event) :
  let component :=
    if matched (re_match YOUTUBE_REGEX (url p))
    then "com.google.android.youtube/.UrlActivity"
    else "is.xyz.mpv/.MPVActivity" in
  let ev :=
    SubprocessRun (intent_argv (url p) component) false (get_clean_env w) in
  _play_on_mobile YOUTUBE_REGEX w p tr
  = (after_run w ev (mkPlayerResult (episode p) None None), tr ++ [ev]).
Proof.
  unfold _play_on_mobile.
  destruct (matched (re_match YOUTUBE_REGEX (url p))); apply run_then_ret.
Qed.

(** C8. On termux, a request that passes both guards is dispatched by one
    [am start] call whose component is the YouTube activity when
    [YOUTUBE_REGEX] matches the URL and the mpv activity otherwise; once
    the call is back the result is [PlayerResult(episode)], both times
    [None]. *)
Theorem play_mobile_dispatch
    (w : World) (self : MpvPlayer) (p : PlayerParams) (tr : list event) :
  is_running_in_termux w = true ->
  matched (re_match TORRENT_REGEX (url p)) = false ->
  syncplay p = false ->
  let component :=
    if matched (re_match YOUTUBE_REGEX (url p))
    then "com.google.android.youtube/.UrlActivity"
    else "is.xyz.mpv/.MPVActivity" in
  let ev :=
    SubprocessRun (intent_argv (url p) component) false (get_clean_env w) in
  play TORRENT_REGEX YOUTUBE_REGEX w self p tr
  = (after_run w ev (mkPlayerResult (episode p) None None), tr ++ [ev]).
Proof.
  intros Hm Ht Hs. rewrite play_mobile by assumption.
  apply _play_on_mobile_run.
Qed.

End Guards.

Section Desktop.

Variables TORRENT_REGEX YOUTUBE_REGEX : regex.

(** C10. [play_with_ipc] never looks at [self.executable]: when
    [shutil.which("mpv")] found nothing, the call still reaches
    [subprocess.Popen], with [None] as the token that follows the
    configured prefix (the first token when there is none), and its
    outcome is the one of that call, never a [ViuError]. *)
Theorem play_with_ipc_spawns_without_executable
    (w : World) (cfg : MpvConfig) (p : PlayerParams) (socket_path : string)
    (tr : list event) :
  which w "mpv" = None ->
  let self := init w cfg in
  let argv :=
    some_all (_pre_args self)
    ++ None
       :: Some ("--input-ipc-server=" ++ socket_path)%string
       :: Some "--idle=yes"
       :: Some "--force-window=yes"
       :: Some ("--config-dir=" ++ _mpv_config_dir w)%string
       :: Some (url p)
       :: some_all (_create_mpv_cli_options self p) in
  let ev := SubprocessPopen argv (get_clean_env w) in
  play_with_ipc w self p socket_path tr
  = (match os_popen w ev with
     | Some h => Ok h
     | None => Raise (LaunchFailure ev)
     end, tr ++ [ev])
  /\ (forall msg, fst (play_with_ipc w self p socket_path tr)
                  <> Raise (ViuError msg))
  /\ nth_error argv (length (_pre_args self)) = Some None.
Proof.
  intros Hx self argv ev.
  assert (E : play_with_ipc w self p socket_path tr
              = (match os_popen w ev with
                 | Some h => Ok h
                 | None => Raise (LaunchFailure ev)
                 end, tr ++ [ev])).
  { unfold play_with_ipc, subprocess_Popen, ev, argv, self, init. simpl.
    rewrite Hx. reflexivity. }
  split; [exact E|]. split.
  - intros msg. rewrite E. simpl. destruct (os_popen w ev); discriminate.
  - unfold argv, some_all. rewrite nth_error_app2; rewrite length_map; [|lia].
    rewrite Nat.sub_diag. reflexivity.
Qed.

(** C4 (as the code has it). [play_with_ipc] starts, after the configured
    prefix tokens, the player with the IPC-server, idle and force-window
    tokens first, then the configuration directory, then the URL and
    the option flags. *)
Theorem play_with_ipc_command_line
    (w : World) (self : MpvPlayer) (p : PlayerParams) (socket_path : string)
    (tr : list event) :
  snd (play_with_ipc w self p socket_path tr)
  = tr ++ [ SubprocessPopen
              (some_all (_pre_args self)
               ++ [ executable self;
                    Some ("--input-ipc-server=" ++ socket_path)%string;
                    Some "--idle=yes";
                    Some "--force-window=yes";
                    Some ("--config-dir=" ++ _mpv_config_dir w)%string;
                    Some (url p) ]
               ++ some_all (_create_mpv_cli_options self p))
              (get_clean_env w) ].
Proof.
  unfold play_with_ipc, subprocess_Popen. simpl. reflexivity.
Qed.

(** C5. Off termux, with the mpv executable found
    and a URL in which the torrent pattern is found: without
    [webtorrent] on the path [play] raises the install-webtorrent
    [ViuError] and starts nothing; with it, [play] runs
    [webtorrent url --mpv], followed by [--player-args] and the option
    tokens when there are any, and returns [PlayerResult(episode)]. *)
Theorem play_desktop_torrent
    (w : World) (self : MpvPlayer) (p : PlayerParams) (tr : list event) :
  is_running_in_termux w = false ->
  PyStr.truthy_opt (executable self) = true ->
  matched (re_search TORRENT_REGEX (url p)) = true ->
  play TORRENT_REGEX YOUTUBE_REGEX w self p tr
  = match which w "webtorrent" with
    | Some (String c tool) =>
        let ev :=
          SubprocessRun
            (torrent_argv (String c tool) (url p)
               (_create_mpv_cli_options self p))
            false (get_clean_env w) in
        (after_run w ev (mkPlayerResult (episode p) None None), tr ++ [ev])
    | _ => (Raise (ViuError "Please install webtorrent-cli"), tr)
    end.
Proof.
  intros Hd Hx Ht. rewrite play_desktop by exact Hd.
  unfold _play_on_desktop. rewrite Hx, Ht. simpl.
  unfold _stream_on_desktop_with_webtorrent_cli.
  destruct (which w "webtorrent") as [[|c tool]|]; simpl; try reflexivity.
  unfold torrent_argv.
  destruct (_create_mpv_cli_options self p); apply run_then_ret.
Qed.

(** X9. The sync path, as the code has it: the separator is always there,
    followed by the whole player command. *)
Lemma play_desktop_syncplay
    (w : World) (self : MpvPlayer) (p : PlayerParams) (tr : list event)
    (c : ascii) (tool : string) :
  is_running_in_termux w = false ->
  PyStr.truthy_opt (executable self) = true ->
  matched (re_search TORRENT_REGEX (url p)) = false ->
  syncplay p = true ->
  which w "syncplay" = Some (String c tool) ->
  let ev :=
    SubprocessRun
      ([ Some (String c tool); Some (url p); Some "--" ]
       ++ _base_mpv_args w self p)
      false (get_clean_env w) in
  play TORRENT_REGEX YOUTUBE_REGEX w self p tr
  = (after_run w ev (mkPlayerResult (episode p) None None), tr ++ [ev]).
Proof.
  intros Hd Hx Ht Hs Hy. rewrite play_desktop by exact Hd.
  unfold _play_on_desktop. rewrite Hx, Ht, Hs. simpl.
  unfold _stream_on_desktop_with_syncplay. rewrite Hy.
  apply run_then_ret.
Qed.

(** X8. The direct path: the player is run with its output captured and the
    times are read off that output. *)
Lemma play_desktop_direct
    (w : World) (self : MpvPlayer) (p : PlayerParams) (tr : list event) :
  is_running_in_termux w = false ->
  PyStr.truthy_opt (executable self) = true ->
  matched (re_search TORRENT_REGEX (url p)) = false ->
  syncplay p = false ->
  let ev :=
    SubprocessRun (some_all (_pre_args self) ++ _base_mpv_args w self p)
      true (get_clean_env w) in
  play TORRENT_REGEX YOUTUBE_REGEX w self p tr
  = (match os_run w ev with
     | Some proc =>
         Ok (mkPlayerResult (episode p)
               (snd (parse_times (stdout proc)))
               (fst (parse_times (stdout proc))))
     | None => Raise (LaunchFailure ev)
     end, tr ++ [ev]).
Proof.
  intros Hd Hx Ht Hs. rewrite play_desktop by exact Hd.
  unfold _play_on_desktop. rewrite Hx, Ht, Hs. simpl.
  unfold _stream_on_desktop_with_subprocess. unfold_m.
  destruct (os_run w _); reflexivity.
Qed.

End Desktop.

(** ** Where the two torrent guards part *)

Section TorrentGuards.

Variables TORRENT_REGEX YOUTUBE_REGEX : regex.

(** What the webtorrent method leaves behind: the install error and the
    trace as it was, or one run of [webtorrent url --mpv ...]. *)
Lemma webtorrent_outcome (w : World) (self : MpvPlayer) (p : PlayerParams)
    (tr : list event) :
  _stream_on_desktop_with_webtorrent_cli w self p tr
  = (Raise (ViuError "Please install webtorrent-cli"), tr)
  \/ exists o rest,
       _stream_on_desktop_with_webtorrent_cli w self p tr
       = (o, tr ++ [ SubprocessRun
                       (which w "webtorrent" :: Some (url p) :: Some "--mpv"
                        :: rest)
                       false (get_clean_env w) ]).
Proof.
  unfold _stream_on_desktop_with_webtorrent_cli.
  destruct (PyStr.truthy_opt (which w "webtorrent")); [right | now left].
  cbn [negb].
  destruct (_create_mpv_cli_options self p); rewrite run_then_ret;
    do 2 eexists; reflexivity.
Qed.

Ltac clash H :=
  unfold M.raise in H;
  first
    [ discriminate H
    | apply (f_equal snd) in H; cbn [snd] in H;
      first
        [ apply (f_equal (@length event)) in H;
          rewrite ?length_app in H; simpl in H; lia
        | apply app_inv_head in H; discriminate H ] ].

(** Off termux, [play] is the webtorrent method only when [search] finds
    the torrent pattern in the URL: the other three outcomes of
    [_play_on_desktop] differ from it in the error or in the command. *)
Lemma desktop_torrent_path_inv (w : World) (self : MpvPlayer)
    (p : PlayerParams) (tr : list event) :
  is_running_in_termux w = false ->
  play TORRENT_REGEX YOUTUBE_REGEX w self p tr
  = _stream_on_desktop_with_webtorrent_cli w self p tr ->
  matched (re_search TORRENT_REGEX (url p)) = true.
Proof.
  intros Hd H. rewrite play_desktop in H by exact Hd.
  unfold _play_on_desktop in H.
  destruct (matched (re_search TORRENT_REGEX (url p))); [reflexivity|].
  exfalso.
  destruct (webtorrent_outcome w self p tr) as [W|(o & rest & W)];
    rewrite W in H; clear W.
  - destruct (PyStr.truthy_opt (executable self)); cbn [negb] in H;
      [|clash H].
    destruct (syncplay p).
    + unfold _stream_on_desktop_with_syncplay in H.
      destruct (PyStr.truthy_opt (which w "syncplay")); cbn [negb] in H;
        [|clash H].
      rewrite run_then_ret in H. clash H.
    + unfold _stream_on_desktop_with_subprocess in H. unfold_m.
      cbv zeta in H. destruct (os_run w _); clash H.
  - destruct (PyStr.truthy_opt (executable self)); cbn [negb] in H;
      [|clash H].
    destruct (syncplay p).
    + unfold _stream_on_desktop_with_syncplay in H.
      destruct (PyStr.truthy_opt (which w "syncplay")); cbn [negb] in H;
        [|clash H].
      unfold _base_mpv_args in H. cbn [app] in H.
      rewrite run_then_ret in H. clash H.
    + unfold _stream_on_desktop_with_subprocess in H. unfold_m.
      cbv zeta in H. destruct (os_run w _); clash H.
Qed.

(** On termux a URL the pattern matches never gets past the first guard. *)
Lemma termux_pass_inv (w : World) (self : MpvPlayer) (p : PlayerParams)
    (tr : list event) :
  is_running_in_termux w = true ->
  (forall msg, fst (play TORRENT_REGEX YOUTUBE_REGEX w self p tr)
               <> Raise (ViuError msg)) ->
  matched (re_match TORRENT_REGEX (url p)) = false /\ syncplay p = false.
Proof.
  intros Hm Hno. unfold play in Hno. rewrite Hm, !andb_true_r in Hno.
  destruct (matched (re_match TORRENT_REGEX (url p)));
    [exfalso; eapply Hno; reflexivity|].
  destruct (syncplay p); [exfalso; eapply Hno; reflexivity|].
  split; reflexivity.
Qed.

(** C9 (as the code has it). [play] guards with [match], [_play_on_desktop]
    with [search].  A request is let through to the intent on termux and
    handed to webtorrent off termux exactly when the torrent pattern
    matches in its URL at a later offset but not at the start (and the
    syncplay flag is off).  For a pattern that opens with [^] there is
    no such URL: [search] and [match] agree, and what termux lets
    through goes to syncplay or to mpv itself on the desktop. *)
Theorem torrent_guards_part_only_after_start
    (w_mobile w_desktop : World) (self : MpvPlayer) (p : PlayerParams)
    (tr : list event) :
  is_running_in_termux w_mobile = true ->
  is_running_in_termux w_desktop = false ->
  PyStr.truthy_opt (executable self) = true ->
  (((forall msg,
       fst (play TORRENT_REGEX YOUTUBE_REGEX w_mobile self p tr)
       <> Raise (ViuError msg))
    /\ (exists component,
          snd (play TORRENT_REGEX YOUTUBE_REGEX w_mobile self p tr)
          = tr ++ [ SubprocessRun (intent_argv (url p) component) false
                      (get_clean_env w_mobile) ])
    /\ play TORRENT_REGEX YOUTUBE_REGEX w_desktop self p tr
       = _stream_on_desktop_with_webtorrent_cli w_desktop self p tr)
   <-> (syncplay p = false
        /\ re_match TORRENT_REGEX (url p) = None
        /\ exists i m,
             0 < i <= length (list_ascii_of_string (url p))
             /\ match_at TORRENT_REGEX i
                  (skipn i (list_ascii_of_string (url p))) = Some m))
  /\ (forall r,
        TORRENT_REGEX = Seq Bol r ->
        re_search TORRENT_REGEX (url p) = re_match TORRENT_REGEX (url p)
        /\ (matched (re_match TORRENT_REGEX (url p)) = false ->
            play TORRENT_REGEX YOUTUBE_REGEX w_desktop self p tr
            = if syncplay p
              then _stream_on_desktop_with_syncplay w_desktop self p tr
              else _stream_on_desktop_with_subprocess w_desktop self p tr)).
Proof.
  intros Hmob Hdesk Hx. split; [split|].
  - intros (Hno & _ & Ht).
    destruct (@termux_pass_inv w_mobile self p tr Hmob Hno) as [Hm Hs].
    apply desktop_torrent_path_inv in Ht; [|exact Hdesk].
    assert (Hnone : re_match TORRENT_REGEX (url p) = None).
    { destruct (re_match TORRENT_REGEX (url p)); [discriminate | reflexivity]. }
    apply re_search_iff in Ht as (i & m & Hi & Hat).
    repeat split; try assumption.
    exists i, m. repeat split; try assumption.
    destruct i as [|i]; [|lia].
    unfold re_match in Hnone. simpl in Hat. congruence.
  - intros (Hs & Hnone & i & m & [_ Hi] & Hat).
    assert (Hsearch : matched (re_search TORRENT_REGEX (url p)) = true).
    { apply re_search_iff. exists i, m. split; assumption. }
    assert (Hmatch : matched (re_match TORRENT_REGEX (url p)) = false).
    { rewrite Hnone. reflexivity. }
    pose proof (@_play_on_mobile_run YOUTUBE_REGEX w_mobile p tr) as D.
    cbv zeta in D.
    rewrite (@play_mobile TORRENT_REGEX YOUTUBE_REGEX w_mobile self p)
      by assumption.
    split; [|split].
    + intros msg. rewrite D. unfold after_run. simpl.
      destruct (os_run w_mobile _); discriminate.
    + eexists. rewrite D. reflexivity.
    + rewrite play_desktop by exact Hdesk.
      unfold _play_on_desktop. rewrite Hx, Hsearch. reflexivity.
  - intros r ->. split; [apply re_search_anchored|].
    intros Hm. rewrite play_desktop by exact Hdesk.
    unfold _play_on_desktop. rewrite Hx, re_search_anchored, Hm.
    destruct (syncplay p); reflexivity.
Qed.

End TorrentGuards.

(** C9 (as stated) fails for every torrent pattern that opens with [^]:
    no request is both let through on termux and handed to webtorrent
    off termux, whatever the worlds, the player and the URL. *)
Lemma anchored_torrent_guards_never_part :
  ~ exists (r youtube : regex) (w_mobile w_desktop : World)
           (self : MpvPlayer) (p : PlayerParams) (tr : list event),
      is_running_in_termux w_mobile = true
      /\ is_running_in_termux w_desktop = false
      /\ (forall msg,
            fst (play (Seq Bol r) youtube w_mobile self p tr)
            <> Raise (ViuError msg))
      /\ play (Seq Bol r) youtube w_desktop self p tr
         = _stream_on_desktop_with_webtorrent_cli w_desktop self p tr.
Proof.
  intros (r & youtube & w_mobile & w_desktop & self & p & tr
          & Hmob & Hdesk & Hno & Ht).
  destruct (@termux_pass_inv (Seq Bol r) youtube w_mobile self p tr
              Hmob Hno) as [Hm _].
  apply desktop_torrent_path_inv in Ht; [|exact Hdesk].
  rewrite re_search_anchored in Ht. congruence.
Qed.

(** C4 (as stated) fails: with nothing configured and mpv installed, the
    command started is not the documented one, the configuration
    directory comes after the three IPC tokens. *)
Lemma play_with_ipc_not_documented_order :
  let w := desktop_world in
  let self := init w plain_config in
  let p := plain_request "http://h/v.mp4" false in
  snd (M.exec (play_with_ipc w self p "/tmp/mpv.sock"))
  <> [ SubprocessPopen
         (documented_ipc_argv (executable self) (_mpv_config_dir w)
            "/tmp/mpv.sock" (url p) (_create_mpv_cli_options self p))
         (get_clean_env w) ].
Proof.
  vm_compute. discriminate.
Qed.

(** C3. A sync request with no option token at all, mpv and syncplay
    installed: the tool is run with the separator all the same, followed
    by the mpv path, the configuration directory and the URL once more,
    where the interface description has [syncplay url] alone. *)
Theorem syncplay_separator_without_options :
  let w := desktop_world in
  let self := init w plain_config in
  let p := plain_request "http://h/v.mp4" true in
  _create_mpv_cli_options self p = []
  /\ M.exec (play magnet_pattern youtube_pattern w self p)
     = (Ok (mkPlayerResult "7" None None),
        [ SubprocessRun
            [ Some "/usr/bin/syncplay"; Some "http://h/v.mp4"; Some "--";
              Some "/usr/bin/mpv"; Some "--config-dir=/home/u/.config/mpv";
              Some "http://h/v.mp4" ]
            false (get_clean_env w) ])
  /\ snd (M.exec (play magnet_pattern youtube_pattern w self p))
     <> [ SubprocessRun
            (documented_syncplay_argv "/usr/bin/syncplay" (url p)
               (_create_mpv_cli_options self p))
            false (get_clean_env w) ].
Proof.
  vm_compute. repeat split; discriminate.
Qed.

(** ** What [search] finds in a line *)

(** X10. What [search] returns on a line is a marker of the line: the match
    starts where the marker does and groups 1, 2 and 3 are its elapsed
    time, total time and percentage, runs of digits and colons (digits
    for the percentage), possibly empty. *)
Theorem marker_search_fields (line : string) (m : Match) :
  re_search MPV_AV_TIME_PATTERN line = Some m ->
  exists pre e t pc post,
    list_ascii_of_string line = pre ++ marker_text e t pc ++ post
    /\ length pre = m_start m
    /\ forallb is_digit_or_colon e = true
    /\ forallb is_digit_or_colon t = true
    /\ forallb is_digit pc = true
    /\ group m 1 = Some (string_of_list_ascii e)
    /\ group m 2 = Some (string_of_list_ascii t)
    /\ group m 3 = Some (string_of_list_ascii pc).
Proof.
  unfold re_search. intros H.
  apply search_from_inv in H as (i & Hi & H). simpl in H.
  apply marker_match_inv in H
    as (e & t & pc & post & Hs & He & Ht & Hpc & Hstart & G).
  exists (firstn i (list_ascii_of_string line)), e, t, pc, post.
  rewrite <- Hs, firstn_skipn. unfold group. rewrite G, Hstart.
  repeat split; try assumption.
  rewrite length_firstn. lia.
Qed.

(** X11. A line is recognised exactly when a marker occurs somewhere in it. *)
Theorem marker_search_iff (line : string) :
  matched (re_search MPV_AV_TIME_PATTERN line) = true
  <-> exists pre e t pc post,
        list_ascii_of_string line = pre ++ marker_text e t pc ++ post
        /\ forallb is_digit_or_colon e = true
        /\ forallb is_digit_or_colon t = true
        /\ forallb is_digit pc = true.
Proof.
  split.
  - intros H. apply re_search_iff in H as (i & m & Hi & H).
    apply marker_match_inv in H
      as (e & t & pc & post & Hs & He & Ht & Hpc & _).
    exists (firstn i (list_ascii_of_string line)), e, t, pc, post.
    rewrite <- Hs, firstn_skipn. repeat split; assumption.
  - intros (pre & e & t & pc & post & Hs & He & Ht & Hpc).
    destruct (@marker_match_at (length pre) e t pc post He Ht Hpc)
      as (m & Hm & _).
    apply re_search_iff. exists (length pre), m. rewrite Hs. split.
    + rewrite length_app. lia.
    + rewrite skipn_app, Nat.sub_diag, skipn_all. exact Hm.
Qed.

(** ** Strings: append, split and strip *)

Lemma append_assoc (a b c : string) :
  ((a ++ b) ++ c = a ++ b ++ c)%string.
Proof.
  induction a as [|x a IH]; simpl; [reflexivity | now rewrite IH].
Qed.

Lemma split_app_sep (sep : ascii) (a b : string) :
  PyStr.split sep (a ++ String sep b)
  = PyStr.split sep a ++ PyStr.split sep b.
Proof.
  induction a as [|c a IH]; simpl.
  - now rewrite Ascii.eqb_refl.
  - rewrite IH. pose proof (split_not_nil sep a) as Hne.
    destruct (Ascii.eqb c sep); [reflexivity|].
    destruct (PyStr.split sep a); [contradiction | reflexivity].
Qed.

Lemma split_without_sep (sep : ascii) (s : string) :
  forallb (fun c => negb (Ascii.eqb c sep)) (list_ascii_of_string s) = true ->
  PyStr.split sep s = [s].
Proof.
  induction s as [|c s IH]; simpl; [reflexivity|].
  intros H. apply andb_true_iff in H as [Hc Hs].
  apply negb_true_iff in Hc. rewrite Hc, (IH Hs). reflexivity.
Qed.

Lemma split_pieces_without_sep (sep : ascii) (s : string) :
  forall x, In x (PyStr.split sep s) -> ~ In sep (list_ascii_of_string x).
Proof.
  induction s as [|c s IH]; simpl; intros x Hx.
  - destruct Hx as [<-|[]]. simpl. tauto.
  - destruct (Ascii.eqb c sep) eqn:E.
    + destruct Hx as [<-|Hx]; [simpl; tauto | now apply IH].
    + apply Ascii.eqb_neq in E.
      destruct (PyStr.split sep s) as [|h t]; simpl in Hx.
      * destruct Hx as [<-|[]]. simpl. intros [H|[]]. congruence.
      * destruct Hx as [<-|Hx].
        -- simpl. intros [H|H]; [congruence|].
           apply (IH h); [now left | exact H].
        -- apply IH. now right.
Qed.

Lemma split_length (sep : ascii) (s : string) :
  length (PyStr.split sep s)
  = S (count_occ ascii_dec (list_ascii_of_string s) sep).
Proof.
  induction s as [|c s IH]; simpl; [reflexivity|].
  pose proof (split_not_nil sep s) as Hne.
  destruct (Ascii.eqb c sep) eqn:E.
  - apply Ascii.eqb_eq in E. subst c.
    destruct (ascii_dec sep sep); [|congruence]. simpl. now rewrite IH.
  - apply Ascii.eqb_neq in E.
    destruct (ascii_dec c sep); [congruence|].
    destruct (PyStr.split sep s); [contradiction|]. exact IH.
Qed.

(** [rstrip] leaves everything up to a character that is not white
    space as it is. *)
Lemma rstrip_after (a : string) (c : ascii) (b : string) :
  PyStr.isspace c = false ->
  PyStr.rstrip (a ++ String c b) = (a ++ String c (PyStr.rstrip b))%string.
Proof.
  intros Hc. induction a as [|d a IH].
  - simpl. rewrite Hc. destruct (PyStr.rstrip b); reflexivity.
  - change (PyStr.rstrip (String d (a ++ String c b))
            = String d (a ++ String c (PyStr.rstrip b)))%string.
    cbn [PyStr.rstrip]. rewrite IH.
    destruct a; reflexivity.
Qed.

Lemma marker_line_split (e t pc rest : string) :
  marker_line e t pc rest
  = (("AV: " ++ e ++ " / " ++ t ++ " (" ++ pc ++ "%") ++ String ")" rest)%string.
Proof.
  unfold marker_line. rewrite !append_assoc. reflexivity.
Qed.

Lemma strip_marker_line (e t pc rest : string) :
  PyStr.strip (marker_line e t pc rest)
  = marker_line e t pc (PyStr.rstrip rest).
Proof.
  unfold PyStr.strip.
  replace (PyStr.lstrip (marker_line e t pc rest))
    with (marker_line e t pc rest) by reflexivity.
  rewrite !marker_line_split. now rewrite rstrip_after.
Qed.

Lemma class_without_newline (p : ascii -> bool) (l : list ascii) :
  p newline = false ->
  forallb p l = true ->
  forallb (fun c => negb (Ascii.eqb c newline)) l = true.
Proof.
  intros Hp. induction l as [|c l IH]; simpl; [reflexivity|].
  intros H. apply andb_true_iff in H as [Hc Hl].
  rewrite (IH Hl), andb_true_r. apply negb_true_iff.
  destruct (Ascii.eqb c newline) eqn:E; [|reflexivity].
  apply Ascii.eqb_eq in E. subst c. congruence.
Qed.

Lemma marker_line_no_newline (e t pc rest : string) :
  forallb is_digit_or_colon (list_ascii_of_string e) = true ->
  forallb is_digit_or_colon (list_ascii_of_string t) = true ->
  forallb is_digit (list_ascii_of_string pc) = true ->
  no_newline rest = true ->
  no_newline (marker_line e t pc rest) = true.
Proof.
  intros He Ht Hpc Hr. unfold no_newline, marker_line.
  rewrite !list_ascii_of_string_app, !forallb_app.
  rewrite (class_without_newline is_digit_or_colon _ eq_refl He).
  rewrite (class_without_newline is_digit_or_colon _ eq_refl Ht).
  rewrite (class_without_newline is_digit _ eq_refl Hpc).
  unfold no_newline in Hr. rewrite Hr. reflexivity.
Qed.

(** ** Printing a marker and reading it back *)

Lemma scan_marker_line_first (e t pc rest : string) (lines : list string) :
  forallb is_digit_or_colon (list_ascii_of_string e) = true ->
  forallb is_digit_or_colon (list_ascii_of_string t) = true ->
  forallb is_digit (list_ascii_of_string pc) = true ->
  scan_lines (marker_line e t pc rest :: lines) = (Some e, Some t).
Proof.
  intros He Ht Hpc. simpl. rewrite strip_marker_line.
  destruct (@marker_line_search e t pc (PyStr.rstrip rest) He Ht Hpc)
    as (m & Hm & G1 & G2).
  unfold marker_line. rewrite Hm, G1, G2. reflexivity.
Qed.

Lemma truthy_app_cons (a : string) (c : ascii) (b : string) :
  PyStr.truthy (a ++ String c b) = true.
Proof.
  destruct a; reflexivity.
Qed.

(** X12. When the last line of the output that is not empty opens with a
    marker (fields of digits and colons, anything but a line feed after
    it), [parse_times] gives back the elapsed and the total time of that
    marker, whatever was printed before: alone, after other lines, and
    with a closing line feed. *)
Theorem parse_times_reads_back_last_marker (out e t pc rest : string) :
  forallb is_digit_or_colon (list_ascii_of_string e) = true ->
  forallb is_digit_or_colon (list_ascii_of_string t) = true ->
  forallb is_digit (list_ascii_of_string pc) = true ->
  no_newline rest = true ->
  parse_times (marker_line e t pc rest) = (Some e, Some t)
  /\ parse_times (out ++ nl ++ marker_line e t pc rest) = (Some e, Some t)
  /\ parse_times (out ++ nl ++ marker_line e t pc rest ++ nl)
     = (Some e, Some t).
Proof.
  intros He Ht Hpc Hr.
  pose proof (@marker_line_no_newline e t pc rest He Ht Hpc Hr) as Hn.
  pose proof (@split_without_sep newline (marker_line e t pc rest) Hn) as Hl.
  split; [|split].
  - unfold parse_times. rewrite Hl.
    replace (PyStr.truthy (marker_line e t pc rest)) with true by reflexivity.
    now apply scan_marker_line_first.
  - unfold parse_times, nl.
    change (out ++ String newline EmptyString ++ marker_line e t pc rest)%string
      with (out ++ String newline (marker_line e t pc rest))%string.
    rewrite truthy_app_cons, split_app_sep, Hl, rev_unit.
    now apply scan_marker_line_first.
  - unfold parse_times, nl.
    change (out ++ String newline EmptyString
                ++ marker_line e t pc rest ++ String newline EmptyString)%string
      with (out ++ String newline
                     (marker_line e t pc rest ++ String newline EmptyString))%string.
    rewrite truthy_app_cons, !split_app_sep, Hl.
    change (PyStr.split newline EmptyString) with [EmptyString].
    rewrite app_assoc, !rev_unit.
    change (scan_lines (EmptyString :: marker_line e t pc rest
                          :: rev (PyStr.split newline out)))
      with (scan_lines (marker_line e t pc rest
                          :: rev (PyStr.split newline out))).
    now apply scan_marker_line_first.
Qed.

(** ** The configured prefix *)

(** X13. [_pre_args] yields nothing when no prefix is configured; otherwise
    one token more than there are commas in the configured string, none
    of which contains a comma, and which joined by commas give the
    string back. *)
Theorem pre_args_tokens (self : MpvPlayer) :
  (PyStr.truthy_opt (pre_args (config self)) = false -> _pre_args self = [])
  /\ (forall s,
        pre_args (config self) = Some s ->
        PyStr.truthy s = true ->
        PyStr.join "," (_pre_args self) = s
        /\ length (_pre_args self)
           = S (count_occ ascii_dec (list_ascii_of_string s) ","%char)
        /\ forall tok, In tok (_pre_args self) ->
                       ~ In ","%char (list_ascii_of_string tok)).
Proof.
  unfold _pre_args. split.
  - destruct (pre_args (config self)) as [s|]; simpl; [|reflexivity].
    now intros ->.
  - intros s -> Hs. rewrite Hs. split; [apply join_split|]. split.
    + apply split_length.
    + apply split_pieces_without_sep.
Qed.

(** ** When there is no option token *)

Lemma create_options_app (self : MpvPlayer) (p : PlayerParams) :
  _create_mpv_cli_options self p
  = header_tokens p ++ subtitle_tokens p ++ start_tokens p ++ title_tokens p
    ++ extra_tokens (config self).
Proof.
  unfold _create_mpv_cli_options, header_tokens, subtitle_tokens,
    start_tokens, title_tokens, extra_tokens, truthy_list.
  destruct (headers p) as [[|kv hs]|];
    destruct (subtitles p) as [[|sub subs]|];
    destruct (start_time p) as [st|]; try destruct (PyStr.truthy st);
    destruct (title p) as [ti|]; try destruct (PyStr.truthy ti);
    destruct (args (config self)) as [a|]; try destruct (PyStr.truthy a);
    rewrite ?fold_left_append; cbn [app map];
    rewrite <- ?app_assoc; cbn [app]; rewrite ?app_nil_r; reflexivity.
Qed.

Lemma header_tokens_nil (p : PlayerParams) :
  header_tokens p = [] <-> truthy_list (headers p) = false.
Proof.
  unfold header_tokens, truthy_list.
  destruct (headers p) as [[|kv hs]|]; split; try reflexivity; discriminate.
Qed.

Lemma subtitle_tokens_nil (p : PlayerParams) :
  subtitle_tokens p = [] <-> truthy_list (subtitles p) = false.
Proof.
  unfold subtitle_tokens, truthy_list.
  destruct (subtitles p) as [[|sub subs]|]; split; try reflexivity;
    discriminate.
Qed.

Lemma start_tokens_nil (p : PlayerParams) :
  start_tokens p = [] <-> PyStr.truthy_opt (start_time p) = false.
Proof.
  unfold start_tokens, PyStr.truthy_opt.
  destruct (start_time p) as [st|]; [|tauto].
  destruct (PyStr.truthy st); split; try reflexivity; discriminate.
Qed.

Lemma title_tokens_nil (p : PlayerParams) :
  title_tokens p = [] <-> PyStr.truthy_opt (title p) = false.
Proof.
  unfold title_tokens, PyStr.truthy_opt.
  destruct (title p) as [ti|]; [|tauto].
  destruct (PyStr.truthy ti); split; try reflexivity; discriminate.
Qed.

Lemma extra_tokens_nil (cfg : MpvConfig) :
  extra_tokens cfg = [] <-> PyStr.truthy_opt (args cfg) = false.
Proof.
  unfold extra_tokens, PyStr.truthy_opt.
  destruct (args cfg) as [a|]; [|tauto].
  destruct (PyStr.truthy a); split; try reflexivity; try discriminate.
  intros H. now apply split_not_nil in H.
Qed.

(** X14. The builder returns no token exactly when the request has no header,
    no subtitle, no start time and no title, and nothing is configured:
    in that case alone webtorrent is run without [--player-args]. *)
Theorem create_mpv_cli_options_nil_iff (self : MpvPlayer) (p : PlayerParams) :
  _create_mpv_cli_options self p = []
  <-> (truthy_list (headers p) = false
       /\ truthy_list (subtitles p) = false
       /\ PyStr.truthy_opt (start_time p) = false
       /\ PyStr.truthy_opt (title p) = false
       /\ PyStr.truthy_opt (args (config self)) = false).
Proof.
  rewrite create_options_app.
  rewrite <- header_tokens_nil, <- subtitle_tokens_nil, <- start_tokens_nil,
    <- title_tokens_nil, <- extra_tokens_nil.
  split.
  - intros H.
    apply app_eq_nil in H as [H1 H]. apply app_eq_nil in H as [H2 H].
    apply app_eq_nil in H as [H3 H]. apply app_eq_nil in H as [H4 H5].
    repeat split; assumption.
  - intros (-> & -> & -> & -> & ->). reflexivity.
Qed.

(** ** Shape of what the scan returns *)

Lemma scan_lines_shape (lines : list string) :
  scan_lines lines = (None, None)
  \/ exists e t, scan_lines lines = (Some e, Some t).
Proof.
  induction lines as [|line lines IH]; simpl; [now left|].
  destruct (re_search MPV_AV_TIME_PATTERN (PyStr.strip line)) as [m|] eqn:E;
    [|exact IH].
  destruct (marker_groups _ E) as (e & t & -> & ->).
  right. now exists e, t.
Qed.

Lemma parse_times_shape (out : string) :
  parse_times out = (None, None)
  \/ exists e t, parse_times out = (Some e, Some t).
Proof.
  unfold parse_times. destruct (PyStr.truthy out); [|now left].
  apply scan_lines_shape.
Qed.

Lemma re_match_search (r : regex) (s : string) :
  matched (re_match r s) = true -> re_search r s = re_match r s.
Proof.
  unfold re_match, re_search. intros H.
  destruct (match_at r 0 (list_ascii_of_string s)) as [m|] eqn:E;
    [|discriminate].
  now apply search_from_head.
Qed.

(** * The paths of [play], all of them *)

Section Paths.

Variables TORRENT_REGEX YOUTUBE_REGEX : regex.

Ltac run_path :=
  unfold_m; cbv zeta;
  match goal with |- context [os_run ?w ?e] => destruct (os_run w e) end;
  simpl; try (split; [reflexivity|]); try (do 2 eexists); reflexivity.

(** X1. Whatever the world and the request: [play] starts no process when it
    raises a [ViuError]; when the launch itself fails the attempt is on
    the trace; when it returns, exactly one [subprocess.run] was added
    and the result carries the episode of the request.  What was on the
    trace before stays there. *)
Theorem play_outcome_and_trace
    (w : World) (self : MpvPlayer) (p : PlayerParams) (tr : list event) :
  match fst (play TORRENT_REGEX YOUTUBE_REGEX w self p tr) with
  | Ok r =>
      res_episode r = episode p
      /\ exists argv cap,
           snd (play TORRENT_REGEX YOUTUBE_REGEX w self p tr)
           = tr ++ [ SubprocessRun argv cap (get_clean_env w) ]
  | Raise (ViuError _) =>
      snd (play TORRENT_REGEX YOUTUBE_REGEX w self p tr) = tr
  | Raise (LaunchFailure ev) =>
      snd (play TORRENT_REGEX YOUTUBE_REGEX w self p tr) = tr ++ [ev]
  end.
Proof.
  unfold play.
  destruct (is_running_in_termux w);
    rewrite ?andb_true_r, ?andb_false_r.
  - destruct (matched (re_match TORRENT_REGEX (url p))); [reflexivity|].
    destruct (syncplay p); [reflexivity|].
    unfold _play_on_mobile, PlayerResult_of.
    destruct (matched (re_match YOUTUBE_REGEX (url p))); run_path.
  - unfold _play_on_desktop.
    destruct (PyStr.truthy_opt (executable self)); [|reflexivity].
    cbn [negb].
    destruct (matched (re_search TORRENT_REGEX (url p))).
    + unfold _stream_on_desktop_with_webtorrent_cli, PlayerResult_of.
      destruct (PyStr.truthy_opt (which w "webtorrent")); [|reflexivity].
      cbn [negb]. run_path.
    + destruct (syncplay p).
      * unfold _stream_on_desktop_with_syncplay, PlayerResult_of.
        destruct (PyStr.truthy_opt (which w "syncplay")); [|reflexivity].
        cbn [negb]. run_path.
      * unfold _stream_on_desktop_with_subprocess. run_path.
Qed.

(** X2. [play] raises no [ViuError] but the five the module spells out. *)
Theorem play_viu_error_messages
    (w : World) (self : MpvPlayer) (p : PlayerParams) (tr : list event)
    (msg : string) :
  fst (play TORRENT_REGEX YOUTUBE_REGEX w self p tr) = Raise (ViuError msg) ->
  In msg viu_messages.
Proof.
  unfold play, viu_messages.
  destruct (is_running_in_termux w);
    rewrite ?andb_true_r, ?andb_false_r.
  - destruct (matched (re_match TORRENT_REGEX (url p)));
      [intros [= <-]; simpl; tauto|].
    destruct (syncplay p); [intros [= <-]; simpl; tauto|].
    unfold _play_on_mobile. unfold_m.
    destruct (matched (re_match YOUTUBE_REGEX (url p)));
      cbv zeta; destruct (os_run w _); discriminate.
  - unfold _play_on_desktop.
    destruct (PyStr.truthy_opt (executable self));
      [|intros [= <-]; simpl; tauto].
    cbn [negb].
    destruct (matched (re_search TORRENT_REGEX (url p))).
    + unfold _stream_on_desktop_with_webtorrent_cli.
      destruct (PyStr.truthy_opt (which w "webtorrent"));
        [|intros [= <-]; simpl; tauto].
      cbn [negb]. unfold_m. cbv zeta. destruct (os_run w _); discriminate.
    + destruct (syncplay p).
      * unfold _stream_on_desktop_with_syncplay.
        destruct (PyStr.truthy_opt (which w "syncplay"));
          [|intros [= <-]; simpl; tauto].
        cbn [negb]. unfold_m. cbv zeta. destruct (os_run w _); discriminate.
      * unfold _stream_on_desktop_with_subprocess. unfold_m. cbv zeta.
        destruct (os_run w _); discriminate.
Qed.

(** X3. The missing-syncplay error is raised in one situation only: off
    termux, with mpv found, no torrent pattern in the URL, the syncplay
    flag set and no [syncplay] on the search path. *)
Theorem play_syncplay_missing_iff
    (w : World) (self : MpvPlayer) (p : PlayerParams) (tr : list event) :
  fst (play TORRENT_REGEX YOUTUBE_REGEX w self p tr)
  = Raise (ViuError "Please install syncplay")
  <-> (is_running_in_termux w = false
       /\ PyStr.truthy_opt (executable self) = true
       /\ matched (re_search TORRENT_REGEX (url p)) = false
       /\ syncplay p = true
       /\ PyStr.truthy_opt (which w "syncplay") = false).
Proof.
  unfold play.
  destruct (is_running_in_termux w);
    rewrite ?andb_true_r, ?andb_false_r.
  - split; [|intros (H & _); discriminate H].
    destruct (matched (re_match TORRENT_REGEX (url p))); [discriminate|].
    destruct (syncplay p); [discriminate|].
    unfold _play_on_mobile. unfold_m.
    destruct (matched (re_match YOUTUBE_REGEX (url p)));
      cbv zeta; destruct (os_run w _); discriminate.
  - unfold _play_on_desktop.
    destruct (PyStr.truthy_opt (executable self));
      [|split; [discriminate | intros (_ & H & _); discriminate H]].
    cbn [negb].
    destruct (matched (re_search TORRENT_REGEX (url p))).
    + split; [|intros (_ & _ & H & _); discriminate H].
      unfold _stream_on_desktop_with_webtorrent_cli.
      destruct (PyStr.truthy_opt (which w "webtorrent")); [|discriminate].
      cbn [negb]. unfold_m. cbv zeta. destruct (os_run w _); discriminate.
    + destruct (syncplay p).
      * unfold _stream_on_desktop_with_syncplay.
        destruct (PyStr.truthy_opt (which w "syncplay")).
        -- split; [|intros (_ & _ & _ & _ & H); discriminate H].
           cbn [negb]. unfold_m. cbv zeta.
           destruct (os_run w _); discriminate.
        -- split; [intros _; repeat split | reflexivity].
      * split; [|intros (_ & _ & _ & H & _); discriminate H].
        unfold _stream_on_desktop_with_subprocess. unfold_m. cbv zeta.
        destruct (os_run w _); discriminate.
Qed.

(** X4. The result of [play] has both times or neither, and it has them only
    on the direct path: off termux, no torrent pattern in the URL, no
    syncplay flag. *)
Theorem play_times_only_on_direct_path
    (w : World) (self : MpvPlayer) (p : PlayerParams) (tr : list event)
    (r : PlayerResult) :
  fst (play TORRENT_REGEX YOUTUBE_REGEX w self p tr) = Ok r ->
  (res_stop_time r = None /\ res_total_time r = None)
  \/ (is_running_in_termux w = false
      /\ matched (re_search TORRENT_REGEX (url p)) = false
      /\ syncplay p = false
      /\ exists elapsed total,
           res_stop_time r = Some elapsed /\ res_total_time r = Some total).
Proof.
  unfold play.
  destruct (is_running_in_termux w);
    rewrite ?andb_true_r, ?andb_false_r.
  - destruct (matched (re_match TORRENT_REGEX (url p))); [discriminate|].
    destruct (syncplay p); [discriminate|].
    unfold _play_on_mobile, PlayerResult_of. unfold_m.
    destruct (matched (re_match YOUTUBE_REGEX (url p)));
      cbv zeta; destruct (os_run w _); intros [= <-]; left; split; reflexivity.
  - unfold _play_on_desktop.
    destruct (PyStr.truthy_opt (executable self)); [|discriminate].
    cbn [negb].
    destruct (matched (re_search TORRENT_REGEX (url p))).
    + unfold _stream_on_desktop_with_webtorrent_cli, PlayerResult_of.
      destruct (PyStr.truthy_opt (which w "webtorrent")); [|discriminate].
      cbn [negb]. unfold_m. cbv zeta.
      destruct (os_run w _); intros [= <-]; left; split; reflexivity.
    + destruct (syncplay p).
      * unfold _stream_on_desktop_with_syncplay, PlayerResult_of.
        destruct (PyStr.truthy_opt (which w "syncplay")); [|discriminate].
        cbn [negb]. unfold_m. cbv zeta.
        destruct (os_run w _); intros [= <-]; left; split; reflexivity.
      * unfold _stream_on_desktop_with_subprocess. unfold_m. cbv zeta.
        destruct (os_run w _) as [proc|]; intros [= <-]. simpl.
        destruct (parse_times_shape (stdout proc)) as [E|(e & t & E)];
          rewrite E; simpl.
        -- left. split; reflexivity.
        -- right. repeat split. now exists e, t.
Qed.

(** X5. On termux nothing of the request but the URL, the episode and the
    syncplay flag is looked at, and nothing of the player object: title,
    start time, subtitles, headers, configured arguments and prefix are
    dropped. *)
Theorem play_termux_ignores_options
    (w : World) (self self' : MpvPlayer) (p p' : PlayerParams)
    (tr : list event) :
  is_running_in_termux w = true ->
  url p = url p' ->
  episode p = episode p' ->
  syncplay p = syncplay p' ->
  play TORRENT_REGEX YOUTUBE_REGEX w self p tr
  = play TORRENT_REGEX YOUTUBE_REGEX w self' p' tr.
Proof.
  intros Hm Hu He Hs. unfold play, _play_on_mobile.
  rewrite Hm, Hu, He, Hs. reflexivity.
Qed.

(** X6. The configured command prefix plays no part when [play] delegates to
    webtorrent or to syncplay: two players that differ in [pre_args]
    alone behave alike there. *)
Theorem play_delegation_ignores_pre_args
    (w : World) (self self' : MpvPlayer) (p : PlayerParams)
    (tr : list event) :
  executable self = executable self' ->
  args (config self) = args (config self') ->
  matched (re_search TORRENT_REGEX (url p)) || syncplay p = true ->
  play TORRENT_REGEX YOUTUBE_REGEX w self p tr
  = play TORRENT_REGEX YOUTUBE_REGEX w self' p tr.
Proof.
  intros Hx Ha Hd.
  assert (Ho : _create_mpv_cli_options self p
               = _create_mpv_cli_options self' p).
  { unfold _create_mpv_cli_options. rewrite Ha. reflexivity. }
  unfold play, _play_on_desktop. rewrite Hx.
  destruct (is_running_in_termux w); [reflexivity|].
  rewrite ?andb_false_r.
  destruct (PyStr.truthy_opt (executable self')); [|reflexivity].
  cbn [negb].
  destruct (matched (re_search TORRENT_REGEX (url p))).
  - unfold _stream_on_desktop_with_webtorrent_cli. rewrite Ho. reflexivity.
  - simpl in Hd. rewrite Hd.
    unfold _stream_on_desktop_with_syncplay, _base_mpv_args.
    rewrite Hx, Ho. reflexivity.
Qed.

(** X7. A URL the termux guard refuses as a torrent is handed to webtorrent
    off termux: what [match] accepts, [search] accepts as well. *)
Theorem play_refused_on_termux_is_torrent_on_desktop
    (w : World) (self : MpvPlayer) (p : PlayerParams) (tr : list event) :
  matched (re_match TORRENT_REGEX (url p)) = true ->
  is_running_in_termux w = false ->
  PyStr.truthy_opt (executable self) = true ->
  re_search TORRENT_REGEX (url p) = re_match TORRENT_REGEX (url p)
  /\ play TORRENT_REGEX YOUTUBE_REGEX w self p tr
     = _stream_on_desktop_with_webtorrent_cli w self p tr.
Proof.
  intros Hm Hd Hx. pose proof (re_match_search _ _ Hm) as Hs.
  split; [exact Hs|].
  unfold play, _play_on_desktop.
  rewrite Hd, Hx, Hs, Hm, ?andb_false_r. reflexivity.
Qed.

End Paths.

(** ** The IPC command against the direct one *)

(** X15. The command [play_with_ipc] starts is the command of the direct path
    (prefix, player, configuration directory, URL, options) with the
    three IPC tokens put in right after the player executable. *)
Theorem play_with_ipc_extends_direct_command
    (w : World) (self : MpvPlayer) (p : PlayerParams) (socket_path : string)
    (tr : list event) :
  let direct := some_all (_pre_args self) ++ _base_mpv_args w self p in
  let n := S (length (_pre_args self)) in
  snd (play_with_ipc w self p socket_path tr)
  = tr ++ [ SubprocessPopen
              (firstn n direct
               ++ [ Some ("--input-ipc-server=" ++ socket_path)%string;
                    Some "--idle=yes";
                    Some "--force-window=yes" ]
               ++ skipn n direct)
              (get_clean_env w) ].
Proof.
  cbv zeta. unfold play_with_ipc, subprocess_Popen, _base_mpv_args, some_all.
  cbn [snd]. do 3 f_equal.
  rewrite firstn_app, skipn_app, length_map.
  replace (S (length (_pre_args self)) - length (_pre_args self)) with 1
    by lia.
  rewrite firstn_all2 by (rewrite length_map; lia).
  rewrite skipn_all2 by (rewrite length_map; lia).
  cbn [firstn skipn app]. rewrite <- app_assoc. reflexivity.
Qed.

(** * The theorems at sample inputs *)

Lemma play_termux_guards_witness :
  let p_torrent := plain_request "magnet:?xt=urn:btih:abc" false in
  let p_sync := plain_request "http://h/v.mp4" true in
  let self := init termux_world plain_config in
  M.exec (play magnet_pattern youtube_pattern termux_world self p_torrent)
  = (Raise (ViuError "Unable to play torrents on termux"), [])
  /\ M.exec (play magnet_pattern youtube_pattern termux_world self p_sync)
     = (Raise (ViuError "Unable to play with syncplay on termux"), []).
Proof.
  split.
  - apply (@play_termux_guards_raise_before_spawn magnet_pattern
             youtube_pattern termux_world
             (init termux_world plain_config)
             (plain_request "magnet:?xt=urn:btih:abc" false) []);
      reflexivity.
  - apply (@play_termux_guards_raise_before_spawn magnet_pattern
             youtube_pattern termux_world
             (init termux_world plain_config)
             (plain_request "http://h/v.mp4" true) []);
      reflexivity.
Defined.

Lemma play_desktop_requires_executable_witness :
  let w := desktop_world_without_mpv in
  M.exec (play magnet_pattern youtube_pattern w (init w plain_config)
            (plain_request "magnet:?xt=urn:btih:abc" true))
  = (Raise (ViuError "MPV executable not found in PATH."), []).
Proof.
  apply (@play_desktop_requires_executable magnet_pattern youtube_pattern
           desktop_world_without_mpv plain_config
           (plain_request "magnet:?xt=urn:btih:abc" true) []);
    reflexivity.
Defined.

Lemma play_mobile_dispatch_witness :
  let self := init termux_world plain_config in
  M.exec (play magnet_pattern youtube_pattern termux_world self
            (plain_request "https://www.youtube.com/watch?v=x" false))
  = (Ok (mkPlayerResult "7" None None),
     [ SubprocessRun
         (intent_argv "https://www.youtube.com/watch?v=x"
            "com.google.android.youtube/.UrlActivity")
         false (get_clean_env termux_world) ])
  /\ M.exec (play magnet_pattern youtube_pattern termux_world self
               (plain_request "http://h/v.mp4" false))
     = (Ok (mkPlayerResult "7" None None),
        [ SubprocessRun (intent_argv "http://h/v.mp4" "is.xyz.mpv/.MPVActivity")
            false (get_clean_env termux_world) ]).
Proof.
  split.
  - apply (@play_mobile_dispatch magnet_pattern youtube_pattern termux_world
             (init termux_world plain_config)
             (plain_request "https://www.youtube.com/watch?v=x" false) []);
      reflexivity.
  - apply (@play_mobile_dispatch magnet_pattern youtube_pattern termux_world
             (init termux_world plain_config)
             (plain_request "http://h/v.mp4" false) []);
      reflexivity.
Defined.

Lemma play_with_ipc_without_executable_witness :
  let w := desktop_world_without_mpv in
  which w "mpv" = None
  /\ M.exec (play_with_ipc w (init w plain_config)
               (plain_request "http://h/v.mp4" false) "/tmp/mpv.sock")
     = (Ok (mkPopen 4242),
        [ SubprocessPopen
            [ None; Some "--input-ipc-server=/tmp/mpv.sock"; Some "--idle=yes";
              Some "--force-window=yes";
              Some "--config-dir=/home/u/.config/mpv"; Some "http://h/v.mp4" ]
            (get_clean_env w) ]).
Proof.
  split; [reflexivity|].
  apply (proj1 (@play_with_ipc_spawns_without_executable
                  desktop_world_without_mpv plain_config
                  (plain_request "http://h/v.mp4" false) "/tmp/mpv.sock" []
                  eq_refl)).
Defined.

Lemma play_desktop_torrent_witness :
  let p := plain_request sample_magnet false in
  M.exec (play torrent_link_pattern youtube_pattern desktop_world
            (init desktop_world plain_config) p)
  = (Ok (mkPlayerResult "7" None None),
     [ SubprocessRun
         [ Some "/usr/bin/webtorrent"; Some sample_magnet; Some "--mpv" ]
         false (get_clean_env desktop_world) ])
  /\ M.exec (play torrent_link_pattern youtube_pattern desktop_world
               (init desktop_world (mkMpvConfig (Some "--fs,--mute") None)) p)
     = (Ok (mkPlayerResult "7" None None),
        [ SubprocessRun
            [ Some "/usr/bin/webtorrent"; Some sample_magnet;
              Some "--mpv"; Some "--player-args"; Some "--fs"; Some "--mute" ]
            false (get_clean_env desktop_world) ])
  /\ M.exec (play torrent_link_pattern youtube_pattern
               desktop_world_without_tools
               (init desktop_world_without_tools plain_config) p)
     = (Raise (ViuError "Please install webtorrent-cli"), []).
Proof.
  split; [|split].
  - apply (@play_desktop_torrent torrent_link_pattern youtube_pattern
             desktop_world (init desktop_world plain_config)
             (plain_request sample_magnet false) []);
      reflexivity.
  - apply (@play_desktop_torrent torrent_link_pattern youtube_pattern
             desktop_world
             (init desktop_world (mkMpvConfig (Some "--fs,--mute") None))
             (plain_request sample_magnet false) []);
      reflexivity.
  - apply (@play_desktop_torrent torrent_link_pattern youtube_pattern
             desktop_world_without_tools
             (init desktop_world_without_tools plain_config)
             (plain_request sample_magnet false) []);
      reflexivity.
Defined.

Lemma torrent_guards_part_witness :
  let u := ("http://h/get?u=" ++ sample_magnet)%string in
  let p := plain_request u false in
  let self := init desktop_world plain_config in
  ((forall msg,
      fst (play magnet_pattern youtube_pattern termux_world self p [])
      <> Raise (ViuError msg))
   /\ play magnet_pattern youtube_pattern desktop_world self p []
      = _stream_on_desktop_with_webtorrent_cli desktop_world self p [])
  /\ re_search torrent_link_pattern u = None
  /\ M.exec (play torrent_link_pattern youtube_pattern desktop_world self p)
     = (Ok (mkPlayerResult "7" None None),
        [ SubprocessRun
            [ Some "/usr/bin/mpv"; Some "--config-dir=/home/u/.config/mpv";
              Some u ]
            true (get_clean_env desktop_world) ]).
Proof.
  split; [|split].
  - destruct (proj2 (proj1
        (@torrent_guards_part_only_after_start magnet_pattern youtube_pattern
           termux_world desktop_world (init desktop_world plain_config)
           (plain_request ("http://h/get?u=" ++ sample_magnet)%string false)
           [] eq_refl eq_refl eq_refl))) as (Hno & _ & Ht).
    + split; [reflexivity|]. split; [reflexivity|].
      exists 15, (mkMatch 15 23 []). split; [simpl; lia | reflexivity].
    + split; assumption.
  - apply (proj1 (proj2
        (@torrent_guards_part_only_after_start torrent_link_pattern
           youtube_pattern termux_world desktop_world
           (init desktop_world plain_config)
           (plain_request ("http://h/get?u=" ++ sample_magnet)%string false)
           [] eq_refl eq_refl eq_refl) _ eq_refl)).
  - apply (proj2 (proj2
        (@torrent_guards_part_only_after_start torrent_link_pattern
           youtube_pattern termux_world desktop_world
           (init desktop_world plain_config)
           (plain_request ("http://h/get?u=" ++ sample_magnet)%string false)
           [] eq_refl eq_refl eq_refl) _ eq_refl)).
    reflexivity.
Defined.

Lemma parse_times_witness :
  parse_times sample_output = (Some "00:02:30", Some "00:10:00")
  /\ parse_times ("Playing: v.mp4" ++ nl ++ "Exiting... (Quit)")%string
     = (None, None).
Proof.
  split.
  - refine (proj1 (proj2 (parse_times_last_matching_line sample_output)
                     [ "AV: 00:01:00 / 00:10:00 (10%)" ]
                     "AV: 00:02:30 / 00:10:00 (25%)"
                     [ "Exiting... (Quit)"; "" ]
                     (mkMatch 0 29 [ (3, "25"); (2, "00:10:00");
                                     (1, "00:02:30") ])
                     eq_refl eq_refl _)).
    intros x [<-|[<-|[]]]; reflexivity.
  - apply (proj1 (parse_times_last_matching_line
                    ("Playing: v.mp4" ++ nl ++ "Exiting... (Quit)")%string)).
    intros x [<-|[<-|[]]]; reflexivity.
Defined.

Lemma play_desktop_direct_witness :
  let self := init playing_world wrapped_config in
  M.exec (play magnet_pattern youtube_pattern playing_world self
            (full_request "http://h/v.mp4" false))
  = (Ok (mkPlayerResult "7" (Some "00:10:00") (Some "00:02:30")),
     [ SubprocessRun
         [ Some "env"; Some "LANG=C"; Some "/usr/bin/mpv";
           Some "--config-dir=/home/u/.config/mpv"; Some "http://h/v.mp4";
           Some "--http-header-fields=Referer:http://h/,User-Agent:viu";
           Some "--sub-file=/subs/en.srt"; Some "--sub-file=/subs/fr.srt";
           Some "--start=120"; Some "--title=Episode 7";
           Some "--fs"; Some "--mute" ]
         true (get_clean_env playing_world) ]).
Proof.
  apply (@play_desktop_direct magnet_pattern youtube_pattern playing_world
           (init playing_world wrapped_config)
           (full_request "http://h/v.mp4" false) []);
    reflexivity.
Defined.

Lemma play_desktop_syncplay_witness :
  let self := init desktop_world wrapped_config in
  M.exec (play magnet_pattern youtube_pattern desktop_world self
            (full_request "http://h/v.mp4" true))
  = (Ok (mkPlayerResult "7" None None),
     [ SubprocessRun
         [ Some "/usr/bin/syncplay"; Some "http://h/v.mp4"; Some "--";
           Some "/usr/bin/mpv";
           Some "--config-dir=/home/u/.config/mpv"; Some "http://h/v.mp4";
           Some "--http-header-fields=Referer:http://h/,User-Agent:viu";
           Some "--sub-file=/subs/en.srt"; Some "--sub-file=/subs/fr.srt";
           Some "--start=120"; Some "--title=Episode 7";
           Some "--fs"; Some "--mute" ]
         false (get_clean_env desktop_world) ]).
Proof.
  apply (@play_desktop_syncplay magnet_pattern youtube_pattern desktop_world
           (init desktop_world wrapped_config)
           (full_request "http://h/v.mp4" true) []
           "/"%char "usr/bin/syncplay");
    reflexivity.
Defined.

Lemma play_syncplay_missing_witness :
  let w := desktop_world_without_tools in
  fst (M.exec (play magnet_pattern youtube_pattern w (init w plain_config)
                 (plain_request "http://h/v.mp4" true)))
  = Raise (ViuError "Please install syncplay").
Proof.
  apply (proj2 (@play_syncplay_missing_iff magnet_pattern youtube_pattern
                  desktop_world_without_tools
                  (init desktop_world_without_tools plain_config)
                  (plain_request "http://h/v.mp4" true) [])).
  repeat split.
Defined.

Lemma play_times_witness :
  let r := mkPlayerResult "7" (Some "00:10:00") (Some "00:02:30") in
  fst (M.exec (play magnet_pattern youtube_pattern playing_world
                 (init playing_world plain_config)
                 (plain_request "http://h/v.mp4" false))) = Ok r
  /\ ((res_stop_time r = None /\ res_total_time r = None)
      \/ (is_running_in_termux playing_world = false
          /\ matched (re_search magnet_pattern "http://h/v.mp4") = false
          /\ false = false
          /\ exists elapsed total,
               res_stop_time r = Some elapsed
               /\ res_total_time r = Some total)).
Proof.
  split; [reflexivity|].
  apply (@play_times_only_on_direct_path magnet_pattern youtube_pattern
           playing_world (init playing_world plain_config)
           (plain_request "http://h/v.mp4" false) []
           (mkPlayerResult "7" (Some "00:10:00") (Some "00:02:30"))).
  reflexivity.
Defined.

Lemma play_viu_error_messages_witness :
  In "MPV executable not found in PATH." viu_messages.
Proof.
  apply (@play_viu_error_messages magnet_pattern youtube_pattern
           desktop_world_without_mpv
           (init desktop_world_without_mpv plain_config)
           (plain_request "http://h/v.mp4" false) []).
  reflexivity.
Defined.

Lemma play_termux_ignores_options_witness :
  play magnet_pattern youtube_pattern termux_world
    (init termux_world wrapped_config) (full_request "http://h/v.mp4" false) []
  = play magnet_pattern youtube_pattern termux_world
      (init termux_world plain_config) (plain_request "http://h/v.mp4" false) [].
Proof.
  apply (@play_termux_ignores_options magnet_pattern youtube_pattern
           termux_world (init termux_world wrapped_config)
           (init termux_world plain_config)
           (full_request "http://h/v.mp4" false)
           (plain_request "http://h/v.mp4" false) []);
    reflexivity.
Defined.

Lemma play_delegation_ignores_pre_args_witness :
  let p := full_request "magnet:?xt=urn:btih:abc" false in
  play magnet_pattern youtube_pattern desktop_world
    (init desktop_world wrapped_config) p []
  = play magnet_pattern youtube_pattern desktop_world
      (init desktop_world (mkMpvConfig (Some "--fs,--mute") None)) p [].
Proof.
  apply (@play_delegation_ignores_pre_args magnet_pattern youtube_pattern
           desktop_world (init desktop_world wrapped_config)
           (init desktop_world (mkMpvConfig (Some "--fs,--mute") None))
           (full_request "magnet:?xt=urn:btih:abc" false) []);
    reflexivity.
Defined.

Lemma play_refused_on_termux_witness :
  let p := plain_request "magnet:?xt=urn:btih:abc" false in
  let self := init desktop_world plain_config in
  fst (M.exec (play magnet_pattern youtube_pattern termux_world self p))
  = Raise (ViuError "Unable to play torrents on termux")
  /\ play magnet_pattern youtube_pattern desktop_world self p []
     = _stream_on_desktop_with_webtorrent_cli desktop_world self p [].
Proof.
  split; [reflexivity|].
  apply (@play_refused_on_termux_is_torrent_on_desktop magnet_pattern
           youtube_pattern desktop_world (init desktop_world plain_config)
           (plain_request "magnet:?xt=urn:btih:abc" false) []);
    reflexivity.
Defined.

Lemma marker_search_fields_witness :
  exists pre e t pc post,
    list_ascii_of_string "(Paused) AV: 00:02:30 / 00:10:00 (25%) A-V: 0.000"
    = pre ++ marker_text e t pc ++ post
    /\ length pre = 9
    /\ Some "00:02:30" = Some (string_of_list_ascii e)
    /\ Some "00:10:00" = Some (string_of_list_ascii t).
Proof.
  destruct (@marker_search_fields
              "(Paused) AV: 00:02:30 / 00:10:00 (25%) A-V: 0.000"
              (mkMatch 9 38 [ (3, "25"); (2, "00:10:00"); (1, "00:02:30") ])
              eq_refl)
    as (pre & e & t & pc & post & Hs & Hl & _ & _ & _ & G1 & G2 & _).
  exists pre, e, t, pc, post. repeat split; assumption.
Defined.

Lemma marker_search_iff_witness :
  matched (re_search MPV_AV_TIME_PATTERN "x AV: 1:2 / 3:4 (5%) y") = true.
Proof.
  apply (proj2 (marker_search_iff "x AV: 1:2 / 3:4 (5%) y")).
  exists (list_ascii_of_string "x "), (list_ascii_of_string "1:2"),
    (list_ascii_of_string "3:4"), (list_ascii_of_string "5"),
    (list_ascii_of_string " y").
  repeat split.
Defined.

Lemma parse_times_reads_back_witness :
  parse_times
    ("Playing: v.mp4" ++ nl
     ++ marker_line "00:02:30" "00:10:00" "25" " A-V: 0.000" ++ nl)
  = (Some "00:02:30", Some "00:10:00").
Proof.
  apply (@parse_times_reads_back_last_marker "Playing: v.mp4"
           "00:02:30" "00:10:00" "25" " A-V: 0.000");
    reflexivity.
Defined.

Lemma pre_args_tokens_witness :
  let self := mkMpvPlayer wrapped_config None in
  _pre_args self = [ "env"; "LANG=C" ]
  /\ PyStr.join "," (_pre_args self) = "env,LANG=C"
  /\ _pre_args (mkMpvPlayer (mkMpvConfig None (Some "")) None) = [].
Proof.
  split; [reflexivity|]. split.
  - apply (proj2 (pre_args_tokens (mkMpvPlayer wrapped_config None))
             "env,LANG=C" eq_refl eq_refl).
  - apply (proj1 (pre_args_tokens
                    (mkMpvPlayer (mkMpvConfig None (Some "")) None))).
    reflexivity.
Defined.

Lemma create_mpv_cli_options_nil_witness :
  _create_mpv_cli_options (mkMpvPlayer plain_config None)
    (mkPlayerParams "http://h/v.mp4" "7" (Some "") None (Some []) None true)
  = [].
Proof.
  apply (proj2 (create_mpv_cli_options_nil_iff
                  (mkMpvPlayer plain_config None)
                  (mkPlayerParams "http://h/v.mp4" "7" (Some "") None
                     (Some []) None true))).
  repeat split.
Defined.
